(** * github-zipball-collector: a shallow embedding and its properties

    The program lists the public repositories of a user through the
    paginated GitHub API and saves the zipball of each one in a fresh,
    time-stamped directory.  The embedding below follows
    [github-zipball-collector.py] function by function.  Everything the
    script does is an effect on the outside world (network, file system,
    clock, standard output), so the functions are written in a state and
    exception monad over a record [World]. *)

From Stdlib Require Import ZArith String Ascii List.
From Stdlib Require Import Strings.Byte.
From Stdlib Require QArith.
From stdpp Require Import base gmap strings list pretty.

Local Open Scope Z_scope.
Set Warnings "-register-all".

(** ** Python values

    What [json.load] and [Response.json] hand back: the image of a JSON
    document as Python objects.  A [dict] keeps its keys in insertion
    order, hence the association list; keys are unique in a real dict and
    [py_dict_get] reads the first binding. *)

Inductive value : Type :=
| VNone
| VBool (b : bool)
| VInt (z : Z)
| VFloat (q : QArith_base.Q)
| VStr (s : string)
| VList (l : list value)
| VDict (d : list (string * value)).

(** Exceptions that the script can see.  None of them is ever caught: the
    only [except] clause of the file guards [import requests]. *)
Inductive exn : Type :=
| ImportError (msg : string)
| ConnectionError            (* requests: no answer; urllib: URLError *)
| HTTPError (code : Z)       (* urllib.error.HTTPError *)
| JSONDecodeError
| KeyError (key : string)
| TypeError
| OSError.

(** Result of running a piece of the script: a value, a raised exception,
    or [OutOfFuel] when the bound on loop iterations of the model is hit
    (the Python loop has no such bound). *)
Inductive outcome (A : Type) : Type :=
| Ok (a : A)
| Raise (e : exn)
| OutOfFuel.
Arguments Ok {A} a.
Arguments Raise {A} e.
Arguments OutOfFuel {A}.

(** ** The world *)

(** The two concrete classes behind the module global [http_client]. *)
Inductive client_class : Type := RequestsHttpClient | UrllibHttpClient.

Inductive http_op : Type := FetchJson | DownloadFile.

(** One GET sent to the network: which class sent it, for which method of
    [HttpClient], and to which URL. *)
Record call : Type := Call { via : client_class; op : http_op; target : string }.

(** A complete HTTP answer (redirections already followed): the status,
    the bytes of the body, and the document the body decodes to when it is
    valid JSON. *)
Record Response : Type :=
  { status_code : Z; raw : list byte; json : option value }.

Inductive net_result : Type :=
| Unreachable
| Answer (r : Response).

Inductive node : Type := Dir | File (content : list byte).

(** A broken-down local time, as [time.localtime()] gives it. *)
Record struct_time : Type :=
  { tm_year : N; tm_mon : N; tm_mday : N;
    tm_hour : N; tm_min : N; tm_sec : N }.

(** - [http_client]: the module global bound while the module is loaded;
    - [net n url]: what the network answers to a GET of [url] sent when [n]
      requests have been sent before it;
    - [cwd], [fs]: working directory and file system, paths being lists of
      components below the root;
    - [clock n]: what the [n]-th reading of the clock shows, [ticks] the
      number of readings so far;
    - [stdout]: the lines that the script itself has written so far, with
      [print] and with its own calls of [logging], which is configured to
      write bare messages there; what libraries log through the same root
      logger while a request is under way is not recorded;
    - [calls]: the requests sent so far, oldest first. *)
Record World : Type := mkWorld
  { http_client : client_class;
    net : nat -> string -> net_result;
    cwd : list string;
    fs : gmap (list string) node;
    clock : nat -> struct_time;
    ticks : nat;
    stdout : list string;
    calls : list call }.

Definition set_fs (f : gmap (list string) node) (w : World) : World :=
  mkWorld (http_client w) (net w) (cwd w) f (clock w) (ticks w) (stdout w) (calls w).
Definition set_ticks (n : nat) (w : World) : World :=
  mkWorld (http_client w) (net w) (cwd w) (fs w) (clock w) n (stdout w) (calls w).
Definition set_stdout (o : list string) (w : World) : World :=
  mkWorld (http_client w) (net w) (cwd w) (fs w) (clock w) (ticks w) o (calls w).
Definition set_calls (c : list call) (w : World) : World :=
  mkWorld (http_client w) (net w) (cwd w) (fs w) (clock w) (ticks w) (stdout w) c.

(** ** The monad *)

Definition M (A : Type) : Type := World -> World * outcome A.

Definition ret {A} (a : A) : M A := fun w => (w, Ok a).
Definition raise {A} (e : exn) : M A := fun w => (w, Raise e).
Definition diverge {A} : M A := fun w => (w, OutOfFuel).
Definition bind {A B} (m : M A) (k : A -> M B) : M B :=
  fun w => match m w with
           | (w', Ok a) => k a w'
           | (w', Raise e) => (w', Raise e)
           | (w', OutOfFuel) => (w', OutOfFuel)
           end.
Definition lift {A} (o : outcome A) : M A := fun w => (w, o).

Declare Scope py_scope.
Delimit Scope py_scope with py.
Notation "x <- m ;; k" := (bind m (fun x => k))
  (at level 100, m at next level, right associativity) : py_scope.
Notation "m ;;; k" := (bind m (fun _ => k))
  (at level 100, right associativity) : py_scope.
Local Open Scope py_scope.

(** ** Python primitives used by the script *)

(** [bool(v)], the test of [while page := ...]. *)
Definition truthy (v : value) : bool :=
  match v with
  | VNone => false
  | VBool b => b
  | VInt z => negb (z =? 0)
  | VFloat q => negb (QArith_base.Qnum q =? 0)
  | VStr s => negb (String.eqb s "")
  | VList l => match l with [] => false | _ => true end
  | VDict d => match d with [] => false | _ => true end
  end.

Fixpoint chars (s : string) : list value :=
  match s with
  | EmptyString => []
  | String c s' => VStr (String c EmptyString) :: chars s'
  end.

(** [iter(v)] run to the end: the elements of a list, the keys of a dict,
    the characters of a string (one per byte here, which is one per code
    point for ASCII text); anything else is not iterable. *)
Definition py_iter (v : value) : outcome (list value) :=
  match v with
  | VList l => Ok l
  | VDict d => Ok (map (fun kv => VStr (fst kv)) d)
  | VStr s => Ok (chars s)
  | _ => Raise TypeError
  end.

(** [acc += v] on a list [acc], that is [acc.extend(v)]. *)
Definition py_list_iadd (acc : list value) (v : value) : outcome (list value) :=
  match py_iter v with
  | Ok l => Ok (acc ++ l)
  | Raise e => Raise e
  | OutOfFuel => OutOfFuel
  end.

Fixpoint py_dict_get (d : list (string * value)) (k : string) : option value :=
  match d with
  | [] => None
  | (k', v) :: d' => if String.eqb k' k then Some v else py_dict_get d' k
  end.

(** [v[k]] for a string [k]. *)
Definition py_getitem (v : value) (k : string) : outcome value :=
  match v with
  | VDict d => match py_dict_get d k with
               | Some x => Ok x
               | None => Raise (KeyError k)
               end
  | _ => Raise TypeError
  end.

(** [v + s] for a string [s]. *)
Definition py_add_str (v : value) (s : string) : outcome string :=
  match v with
  | VStr n => Ok (n +:+ s)
  | _ => Raise TypeError
  end.

(** ** Library services

    The functions of [os], [os.path], [time], [logging], [requests] and
    [urllib] that the script calls, over the world.  Paths are POSIX,
    without symbolic links: [..] is resolved on the text of the path, and
    any number of leading slashes is read as the root, where [posixpath]
    keeps exactly two.  A directory or a file can be refused for the
    reasons written below only; limits on names and permissions are not
    modelled.  A body arrives whole: a transfer cut short is not
    modelled. *)

Module os.

(** [os.path.join(a, b)] *)
Fixpoint ends_with_slash (s : string) : bool :=
  match s with
  | EmptyString => false
  | String c EmptyString => Ascii.eqb c "/"
  | String _ s' => ends_with_slash s'
  end.

Definition path_join (a b : string) : string :=
  if String.prefix "/" b then b
  else if String.eqb a "" || ends_with_slash a then a +:+ b
  else a +:+ "/" +:+ b.

(** Entering the component [comp] from the directory [stack]. *)
Definition enter (comp : string) (stack : list string) : list string :=
  if String.eqb comp "" || String.eqb comp "." then stack
  else if String.eqb comp ".." then removelast stack
  else stack ++ [comp].

(** Walk along the characters of a path; [comp] is the component being
    read. *)
Fixpoint walk (s comp : string) (stack : list string) : list string :=
  match s with
  | EmptyString => enter comp stack
  | String c s' =>
      if Ascii.eqb c "/" then walk s' "" (enter comp stack)
      else walk s' (comp +:+ String c "") stack
  end.

(** The node a path names, from the working directory [wd]. *)
Definition resolve (wd : list string) (p : string) : list string :=
  walk p "" (if String.prefix "/" p then [] else wd).

Definition render (cs : list string) : string :=
  match cs with
  | [] => "/"
  | _ => fold_right (fun c r => "/" +:+ c +:+ r) "" cs
  end.

(** [os.path.abspath(p)] *)
Definition path_abspath (p : string) : M string :=
  fun w => (w, Ok (render (resolve (cwd w) p))).

(** The root is always there. *)
Definition lookup_node (f : gmap (list string) node) (p : list string)
  : option node :=
  match p with
  | [] => Some Dir
  | _ => f !! p
  end.

(** [os.path.exists(p)] *)
Definition path_exists (p : string) : M bool :=
  fun w => (w, Ok (match lookup_node (fs w) (resolve (cwd w) p) with
                   | Some _ => true
                   | None => false
                   end)).

(** [os.mkdir]: the node must be free and its parent a directory. *)
Definition mkdir (p : list string) (f : gmap (list string) node)
  : outcome (gmap (list string) node) :=
  match lookup_node f p with
  | Some _ => Raise OSError
  | None =>
      match lookup_node f (removelast p) with
      | Some Dir => Ok (<[p := Dir]> f)
      | _ => Raise OSError
      end
  end.

(** [os.makedirs], on the reversed list of components: create the parent
    first when it is missing, then the leaf. *)
Fixpoint makedirs_up (rp : list string) (f : gmap (list string) node)
  : outcome (gmap (list string) node) :=
  match rp with
  | [] => Raise OSError
  | _ :: rhead =>
      match (match lookup_node f (rev rhead) with
             | Some _ => Ok f
             | None => makedirs_up rhead f
             end) with
      | Ok f1 => mkdir (rev rp) f1
      | Raise e => Raise e
      | OutOfFuel => OutOfFuel
      end
  end.

Definition makedirs (p : string) : M unit :=
  fun w => match makedirs_up (rev (resolve (cwd w) p)) (fs w) with
           | Ok f => (set_fs f w, Ok tt)
           | Raise e => (w, Raise e)
           | OutOfFuel => (w, OutOfFuel)
           end.

(** [open(p, 'wb')] followed by the copy of [content] into the file: the
    target must not be a directory and its parent must be one. *)
Definition write_node (p : list string) (content : list byte)
    (f : gmap (list string) node) : outcome (gmap (list string) node) :=
  match lookup_node f p with
  | Some Dir => Raise OSError
  | _ =>
      match lookup_node f (removelast p) with
      | Some Dir => Ok (<[p := File content]> f)
      | _ => Raise OSError
      end
  end.

Definition write_binary (p : string) (content : list byte) : M unit :=
  fun w => match write_node (resolve (cwd w) p) content (fs w) with
           | Ok f => (set_fs f w, Ok tt)
           | Raise e => (w, Raise e)
           | OutOfFuel => (w, OutOfFuel)
           end.

End os.

Module time.

(** Two digits, zero padded: [%m], [%d], [%H], [%M], [%S]. *)
Definition pad2 (n : N) : string :=
  if (n <? 10)%N then "0" +:+ pretty n else pretty n.

Definition directive (d : ascii) (t : struct_time) : string :=
  if Ascii.eqb d "Y" then pretty (tm_year t)
  else if Ascii.eqb d "m" then pad2 (tm_mon t)
  else if Ascii.eqb d "d" then pad2 (tm_mday t)
  else if Ascii.eqb d "H" then pad2 (tm_hour t)
  else if Ascii.eqb d "M" then pad2 (tm_min t)
  else if Ascii.eqb d "S" then pad2 (tm_sec t)
  else String "%" (String d "").

Fixpoint format (fmt : string) (t : struct_time) : string :=
  match fmt with
  | EmptyString => ""
  | String c EmptyString => String c ""
  | String c (String d rest as tl) =>
      if Ascii.eqb c "%" then directive d t +:+ format rest t
      else String c (format tl t)
  end.

(** [time.strftime(fmt)]: formats a fresh reading of the clock. *)
Definition strftime (fmt : string) : M string :=
  fun w => (set_ticks (S (ticks w)) w, Ok (format fmt (clock w (ticks w)))).

End time.

Module logging.

(** [basicConfig(stream=sys.stdout, level=DEBUG, format="%(message)s")]:
    every record goes to standard output as its bare message. *)
Definition emit (msg : string) : M unit :=
  fun w => (set_stdout (stdout w ++ [msg]) w, Ok tt).
Definition info := emit.

End logging.

(** [print(msg)] *)
Definition print (msg : string) : M unit := logging.emit msg.

(** One GET on the wire.  The URL goes out as it is: that the libraries
    refuse some malformed URLs before anything is sent is not modelled. *)
Definition send (c : client_class) (o : http_op) (url : string) : M net_result :=
  fun w => (set_calls (calls w ++ [Call c o url]) w,
            Ok (net w (length (calls w)) url)).

Module requests.

(** [requests.get] returns a response whatever its status. *)
Definition received (r : net_result) : outcome Response :=
  match r with
  | Unreachable => Raise ConnectionError
  | Answer a => Ok a
  end.

Definition get (o : http_op) (url : string) : M Response :=
  r <- send RequestsHttpClient o url ;; lift (received r).

End requests.

Module urllib.

(** [urllib.request.urlopen]: the opener it builds holds an
    [HTTPErrorProcessor], which hands every answer whose status is outside
    200..299 to the error handlers, and an [HTTPDefaultErrorHandler],
    which raises [HTTPError] for it. *)
Definition received (r : net_result) : outcome Response :=
  match r with
  | Unreachable => Raise ConnectionError
  | Answer a =>
      if (200 <=? status_code a) && (status_code a <? 300) then Ok a
      else Raise (HTTPError (status_code a))
  end.

Definition urlopen (o : http_op) (url : string) : M Response :=
  r <- send UrllibHttpClient o url ;; lift (received r).

(** [urllib.request.urlretrieve(url, filename)]: the URL is opened with
    [urlopen] first; the file is opened and the body copied only once that
    has returned. *)
Definition urlretrieve (url filename : string) : M unit :=
  fp <- urlopen DownloadFile url ;;
  os.write_binary filename (raw fp).

End urllib.

(** [Response.json()] and [json.load]. *)
Definition decode (a : Response) : outcome value :=
  match json a with
  | Some v => Ok v
  | None => Raise JSONDecodeError
  end.

(** ** The script *)

(** *** class RequestsHttpClient(HttpClient) *)
Module RequestsHttpClient.

Definition request_for_json (url : string) : M value :=
  response <- requests.get FetchJson url ;;
  lift (decode response).

(** [repository_name] is whatever the record holds under ['name']; the
    file is opened, and the name concatenated, only on status 200. *)
Definition download_file (url directory : string) (repository_name : value)
  : M unit :=
  request_for_file <- requests.get DownloadFile url ;;
  if status_code request_for_file =? 200 then
    file_name <- lift (py_add_str repository_name ".zip") ;;
    os.write_binary (os.path_join directory file_name) (raw request_for_file)
  else ret tt.

End RequestsHttpClient.

(** *** class UrllibHttpClient(HttpClient) *)
Module UrllibHttpClient.

Definition request_for_json (url : string) : M value :=
  response <- urllib.urlopen FetchJson url ;;
  lift (decode response).

(** The arguments of [urlretrieve] are evaluated before the call. *)
Definition download_file (url directory : string) (repository_name : value)
  : M unit :=
  file_name <- lift (py_add_str repository_name ".zip") ;;
  urllib.urlretrieve url (os.path_join directory file_name).

End UrllibHttpClient.

(** *** Module level: the choice of [http_client]

    [import requests] either works or raises [ImportError] with some
    message; the [except] clause prints two lines and binds the urllib
    client.  A [Host] is the world before the module is loaded. *)
Record Host : Type :=
  { import_requests : option string;   (* [Some msg]: ImportError(msg) *)
    host_net : nat -> string -> net_result;
    host_cwd : list string;
    host_fs : gmap (list string) node;
    host_clock : nat -> struct_time }.

Definition boot (c : client_class) (h : Host) : World :=
  mkWorld c (host_net h) (host_cwd h) (host_fs h) (host_clock h) 0 [] [].

Definition load_module (h : Host) : World :=
  match import_requests h with
  | None => boot RequestsHttpClient h
  | Some e =>
      fst ((print ("Unable to initialize requests http client, " +:+ e) ;;;
            print "Fallback to urllib client...")
             (boot UrllibHttpClient h))
  end.

(** Method calls on the global: the class of the object bound to
    [http_client] at the time of the call picks the method. *)
Definition http_client_request_for_json (url : string) : M value :=
  fun w => match http_client w with
           | RequestsHttpClient => RequestsHttpClient.request_for_json url w
           | UrllibHttpClient => UrllibHttpClient.request_for_json url w
           end.

Definition http_client_download_file (url directory : string)
    (repository_name : value) : M unit :=
  fun w => match http_client w with
           | RequestsHttpClient =>
               RequestsHttpClient.download_file url directory repository_name w
           | UrllibHttpClient =>
               UrllibHttpClient.download_file url directory repository_name w
           end.

(** [repr] of floats, lists and dicts, and of the client object (which
    shows an address), are left to the interpreter. *)
Class Interpreter : Type :=
  { py_repr : value -> string;
    object_repr : client_class -> string }.

Section Script.

Context `{Interpreter}.

(** [str(v)], as an f-string field [{v}] formats it. *)
Definition py_str (v : value) : string :=
  match v with
  | VStr s => s
  | VNone => "None"
  | VBool true => "True"
  | VBool false => "False"
  | VInt z => pretty z
  | _ => py_repr v
  end.

Definition create_directory_if_not_exist (user : string) : M string :=
  date <- time.strftime "%Y-%m-%d" ;;
  clock_time <- time.strftime "%H-%M-%S" ;;
  let directory := user +:+ "-Date_" +:+ date +:+ "-Time_" +:+ clock_time in
  abs_path <- os.path_abspath directory ;;
  present <- os.path_exists abs_path ;;
  (if negb present then
     logging.info ("Creating directory " +:+ abs_path) ;;;
     os.makedirs abs_path
   else ret tt) ;;;
  ret abs_path.

Definition page_url (user : string) (page : nat) : string :=
  "https://api.github.com/users/" +:+ user
    +:+ "/repos?per_page=100&page=" +:+ pretty page.

Definition request_for_page (user : string) (page : nat) : M value :=
  current_page <- http_client_request_for_json (page_url user page) ;;
  ret current_page.

(** The [while] loop of [request_for_public_repositories]; [fuel] bounds
    the number of times its condition is evaluated. *)
Fixpoint request_pages (fuel : nat) (user : string)
    (all_pages_content : list value) (page_index : nat) : M (list value) :=
  match fuel with
  | O => diverge
  | S fuel' =>
      page <- request_for_page user page_index ;;
      if truthy page then
        all_pages_content' <- lift (py_list_iadd all_pages_content page) ;;
        request_pages fuel' user all_pages_content' (S page_index)
      else ret all_pages_content
  end.

Definition request_for_public_repositories (fuel : nat) (user : string)
  : M (list value) :=
  request_pages fuel user [] 0%nat.

Definition zipball_url (html_url : value) : string :=
  py_str html_url +:+ "/zipball/master/".

Fixpoint save_repositories (repositories : list value) (directory : string)
  : M unit :=
  match repositories with
  | [] => ret tt
  | repository :: rest =>
      repository_name <- lift (py_getitem repository "name") ;;
      html_url <- lift (py_getitem repository "html_url") ;;
      logging.info ("Saving repository " +:+ py_str repository_name
                      +:+ " to " +:+ directory) ;;;
      http_client_download_file (zipball_url html_url) directory
        repository_name ;;;
      save_repositories rest directory
  end.

Fixpoint print_each (repositories : list value) : M unit :=
  match repositories with
  | [] => ret tt
  | repository :: rest =>
      name <- lift (py_getitem repository "name") ;;
      logging.info ("Public repository: " +:+ py_str name) ;;;
      print_each rest
  end.

Definition print_received_repositories (repositories : list value) : M unit :=
  logging.info "Got public repositories: " ;;;
  print_each repositories.

Definition main (fuel : nat) (user : string) : M unit :=
  (fun w => logging.info ("Http client: " +:+ object_repr (http_client w)) w) ;;;
  target_directory <- create_directory_if_not_exist user ;;
  logging.info ("Saving zipball archives in following directory: "
                  +:+ target_directory) ;;;
  repositories <- request_for_public_repositories fuel user ;;
  print_received_repositories repositories ;;;
  save_repositories repositories target_directory ;;;
  logging.info "Completed".

(** The process from the loading of the module to the end of [main], for
    the user name that [parse_username_arg] has returned; the parsing of
    the command line and its line "Got username ..." are left out. *)
Definition run (fuel : nat) (h : Host) (user : string) : World * outcome unit :=
  main fuel user (load_module h).

End Script.

(** ** Notions used to state the properties *)

(** What fetch-JSON returns, as a function of the class of the client and
    of what the network answers. *)
Definition fetched (c : client_class) (r : net_result) : outcome value :=
  match (match c with
         | RequestsHttpClient => requests.received r
         | UrllibHttpClient => urllib.received r
         end) with
  | Ok a => decode a
  | Raise e => Raise e
  | OutOfFuel => OutOfFuel
  end.

(** The requests for pages [from], [from + 1], ..., [n] of them. *)
Definition page_calls (c : client_class) (user : string) (from n : nat)
  : list call :=
  map (fun i => Call c FetchJson (page_url user i)) (seq from n).

(** [w'] is a later state of [w]: same client object, same network,
    working directory and clock, and only requests of that client added. *)
Definition later (w w' : World) : Prop :=
  http_client w' = http_client w /\ net w' = net w /\ cwd w' = cwd w /\
  clock w' = clock w /\
  exists cs, calls w' = calls w ++ cs /\
             Forall (fun c => via c = http_client w) cs.

(** Path components that name an entry: no separator inside, and neither
    empty nor one of the two dot entries. *)
Fixpoint slash_free (s : string) : bool :=
  match s with
  | EmptyString => true
  | String c s' => negb (Ascii.eqb c "/") && slash_free s'
  end.

Definition plain_component (c : string) : Prop :=
  slash_free c = true /\ c <> "" /\ c <> "." /\ c <> "..".

(** A computation is steady when it leads every world to a later one. *)
Definition steady {A} (m : M A) : Prop := forall w, later w (fst (m w)).

Section Stages.

Context `{Interpreter}.

(** [main] up to the call of the Lister ... *)
Definition before_listing (user : string) : M string :=
  (fun w => logging.info ("Http client: " +:+ object_repr (http_client w)) w) ;;;
  target_directory <- create_directory_if_not_exist user ;;
  logging.info ("Saving zipball archives in following directory: "
                  +:+ target_directory) ;;;
  ret target_directory.

(** ... and up to the call of the Exporter. *)
Definition before_downloads (fuel : nat) (user : string)
  : M (list value * string) :=
  target_directory <- before_listing user ;;
  repositories <- request_for_public_repositories fuel user ;;
  print_received_repositories repositories ;;;
  ret (repositories, target_directory).

End Stages.

(** *** The directory name, from the words of the specification

    [{username}-Date_{YYYY-MM-DD}-Time_{HH-MM-SS}], digit by digit. *)
Definition digit (n : N) : ascii :=
  ascii_of_N (48 + n mod 10).

Definition two_digits (n : N) : string :=
  String (digit (n / 10)) (String (digit n) "").

Definition four_digits (n : N) : string :=
  String (digit (n / 1000)) (String (digit (n / 100))
    (String (digit (n / 10)) (String (digit n) ""))).

Definition directory_name (user : string) (date clock_time : struct_time)
  : string :=
  user +:+ "-Date_" +:+ four_digits (tm_year date) +:+ "-"
       +:+ two_digits (tm_mon date) +:+ "-" +:+ two_digits (tm_mday date)
       +:+ "-Time_" +:+ two_digits (tm_hour clock_time) +:+ "-"
       +:+ two_digits (tm_min clock_time) +:+ "-"
       +:+ two_digits (tm_sec clock_time).

(** A reading of a calendar clock with a year of four digits. *)
Definition calendar_time (t : struct_time) : Prop :=
  (1000 <= tm_year t <= 9999 /\ 1 <= tm_mon t <= 12 /\ 1 <= tm_mday t <= 31 /\
   tm_hour t <= 23 /\ tm_min t <= 59 /\ tm_sec t <= 61)%N.

(** ** Sample worlds *)

(** An interpreter for the examples; the address shown for the client
    object is an arbitrary one. *)
Definition an_interpreter : Interpreter :=
  {| py_repr := fun _ => "<object>";
     object_repr := fun c =>
       match c with
       | RequestsHttpClient =>
           "<__main__.RequestsHttpClient object at 0x7f3c5a1d2e80>"
       | UrllibHttpClient =>
           "<__main__.UrllibHttpClient object at 0x7f3c5a1d2e80>"
       end |}.

(** An answer whose body is the JSON text of [doc]; the bytes themselves
    are never looked at when the body is decoded. *)
Definition json_answer (status : Z) (doc : value) : net_result :=
  Answer {| status_code := status; raw := []; json := Some doc |}.

(** The document GitHub sends with status 403 once the rate limit of
    anonymous requests is used up. *)
Definition rate_limit_document : value :=
  VDict [("message", VStr "API rate limit exceeded");
         ("documentation_url", VStr "https://docs.github.com/rest")].

Definition march_5th : struct_time :=
  {| tm_year := 2024; tm_mon := 3; tm_mday := 5;
     tm_hour := 14; tm_min := 7; tm_sec := 22 |}.

Definition home : gmap (list string) node :=
  {[ ["home"] := Dir; ["home"; "bob"] := Dir ]}.

Definition world_of (c : client_class) (n : nat -> string -> net_result)
  : World :=
  mkWorld c n ["home"; "bob"] home (fun _ => march_5th) 0 [] [].

Definition rate_limited : World :=
  world_of RequestsHttpClient (fun _ _ => json_answer 403 rate_limit_document).

(** A clock that is read for the first time in the last second of March
    5th, and then in the first second of March 6th. *)
Definition around_midnight : World :=
  mkWorld RequestsHttpClient (fun _ _ => Unreachable) ["home"; "bob"] home
    (fun n => match n with
              | O => {| tm_year := 2024; tm_mon := 3; tm_mday := 5;
                        tm_hour := 23; tm_min := 59; tm_sec := 59 |}
              | S _ => {| tm_year := 2024; tm_mon := 3; tm_mday := 6;
                          tm_hour := 0; tm_min := 0; tm_sec := 0 |}
              end)
    0 [] [].

(** A small GitHub: bob has three repositories on two pages, every other
    listing is empty; the zipballs of bob/foo and alice/foo exist, any
    other URL is answered with 404. *)
Definition repository (name html_url : string) : value :=
  VDict [("id", VInt 1); ("name", VStr name); ("html_url", VStr html_url);
         ("private", VBool false)].

Definition bob_pages (i : nat) : list value :=
  match i with
  | 0%nat => [repository "foo" "https://github.com/bob/foo";
              repository "bar" "https://github.com/bob/bar"]
  | 1%nat => [repository "baz" "https://github.com/bob/baz"]
  | _ => []
  end.

Definition zip_bytes : list byte := [x50; x4b; x03; x04].

Definition github (n : nat) (url : string) : net_result :=
  if String.eqb url (page_url "bob" 0) then json_answer 200 (VList (bob_pages 0))
  else if String.eqb url (page_url "bob" 1) then json_answer 200 (VList (bob_pages 1))
  else if String.prefix "https://api.github.com/users/" url then json_answer 200 (VList [])
  else if String.eqb url "https://github.com/bob/foo/zipball/master/"
          || String.eqb url "https://github.com/alice/foo/zipball/master/"
       then Answer {| status_code := 200; raw := zip_bytes; json := None |}
  else Answer {| status_code := 404; raw := []; json := None |}.

(** The same, with the network gone after the three requests of bob's
    listing. *)
Definition github_then_offline (n : nat) (url : string) : net_result :=
  if (n <? 3)%nat then github n url else Unreachable.

(** The small GitHub with a network that goes away after the first
    request. *)
Definition github_one_answer (n : nat) (url : string) : net_result :=
  if (n <? 1)%nat then github n url else Unreachable.

(** An endpoint that answers the first request with the rate-limit
    document and every later one with an empty list. *)
Definition rate_limited_once (n : nat) (url : string) : net_result :=
  match n with
  | O => json_answer 403 rate_limit_document
  | S _ => json_answer 200 (VList [])
  end.

(** A file system in which /home/bob/team is a regular file. *)
Definition blocked_home : gmap (list string) node :=
  {[ ["home"] := Dir; ["home"; "bob"] := Dir;
     ["home"; "bob"; "team"] := File [] ]}.

(** A world in which the entry team of the working directory /home/bob is
    a regular file, so that no directory can be made below it. *)
Definition blocked : World :=
  mkWorld RequestsHttpClient github ["home"; "bob"] blocked_home
    (fun _ => march_5th) 0 [] [].

(** The small GitHub once more, where every request after the three of
    bob's listing is answered with 404: no zipball can be had. *)
Definition github_without_zipballs (n : nat) (url : string) : net_result :=
  if (n <? 3)%nat then github n url
  else Answer {| status_code := 404; raw := []; json := None |}.

(** * Properties *)

(** ** The monad and the primitives *)

Lemma bind_ok {A B} (m : M A) (k : A -> M B) w w' a :
  m w = (w', Ok a) -> bind m k w = k a w'.
Proof. unfold bind. intros ->. reflexivity. Qed.

Lemma bind_raise {A B} (m : M A) (k : A -> M B) w w' e :
  m w = (w', Raise e) -> bind m k w = (w', Raise e).
Proof. unfold bind. intros ->. reflexivity. Qed.

Lemma bind_out_of_fuel {A B} (m : M A) (k : A -> M B) w w' :
  m w = (w', OutOfFuel) -> bind m k w = (w', OutOfFuel).
Proof. unfold bind. intros ->. reflexivity. Qed.

(** fetch-JSON sends one request, tagged with the class of the client, and
    returns what [fetched] says. *)
Lemma request_for_json_spec url w :
  http_client_request_for_json url w
  = (set_calls (calls w ++ [Call (http_client w) FetchJson url]) w,
     fetched (http_client w) (net w (length (calls w)) url)).
Proof.
  unfold http_client_request_for_json, fetched.
  destruct (http_client w) eqn:Hc.
  - unfold RequestsHttpClient.request_for_json, requests.get, bind, send, lift.
    destruct (requests.received _); reflexivity.
  - unfold UrllibHttpClient.request_for_json, urllib.urlopen, bind, send, lift.
    destruct (urllib.received _); reflexivity.
Qed.

(** One turn of the [while] loop. *)
Lemma request_pages_step fuel user acc p w :
  request_pages (S fuel) user acc p w
  = let w1 := set_calls (calls w ++ [Call (http_client w) FetchJson (page_url user p)]) w in
    match fetched (http_client w) (net w (length (calls w)) (page_url user p)) with
    | Ok page =>
        if truthy page then
          match py_list_iadd acc page with
          | Ok acc' => request_pages fuel user acc' (S p) w1
          | Raise e => (w1, Raise e)
          | OutOfFuel => (w1, OutOfFuel)
          end
        else (w1, Ok acc)
    | Raise e => (w1, Raise e)
    | OutOfFuel => (w1, OutOfFuel)
    end.
Proof.
  cbn [request_pages]. unfold request_for_page, bind at 1 2.
  rewrite request_for_json_spec. cbn zeta.
  destruct (fetched _ _) as [page| |]; try reflexivity.
  unfold ret at 1. destruct (truthy page); [|reflexivity].
  unfold bind, lift. destruct (py_list_iadd acc page); reflexivity.
Qed.

(** ** The Lister *)

Lemma page_calls_cons c user p n :
  page_calls c user p (S n)
  = Call c FetchJson (page_url user p) :: page_calls c user (S p) n.
Proof. reflexivity. Qed.

Lemma request_pages_until_empty user (pages : nat -> list value) :
  forall k fuel acc p w,
    (forall i, (i < k)%nat -> pages (p + i)%nat <> []) ->
    pages (p + k)%nat = [] ->
    (forall i, (i <= k)%nat ->
       fetched (http_client w)
         (net w (length (calls w) + i)%nat (page_url user (p + i)%nat))
       = Ok (VList (pages (p + i)%nat))) ->
    (k < fuel)%nat ->
    request_pages fuel user acc p w
    = (set_calls (calls w ++ page_calls (http_client w) user p (S k)) w,
       Ok (acc ++ concat (map pages (seq p k)))).
Proof.
  induction k as [|k IH]; intros fuel acc p w Hne Hk Hnet Hfuel.
  - destruct fuel as [|fuel]; [lia|].
    rewrite request_pages_step. cbn zeta.
    specialize (Hnet 0%nat (Nat.le_refl _)).
    rewrite !Nat.add_0_r in Hnet. rewrite Nat.add_0_r in Hk.
    rewrite Hnet, Hk. cbn.
    rewrite app_nil_r. reflexivity.
  - destruct fuel as [|fuel]; [lia|].
    rewrite request_pages_step. cbn zeta.
    pose proof (Hnet 0%nat (Nat.le_0_l _)) as H0.
    rewrite !Nat.add_0_r in H0. rewrite H0.
    assert (Hp : pages p <> []).
    { specialize (Hne 0%nat (Nat.lt_0_succ _)). rewrite Nat.add_0_r in Hne.
      exact Hne. }
    assert (Ht : truthy (VList (pages p)) = true).
    { cbn. destruct (pages p); [congruence | reflexivity]. }
    rewrite Ht. cbn [py_list_iadd py_iter].
    rewrite IH.
    + cbn [http_client set_calls calls].
      rewrite <- app_assoc. cbn [app]. rewrite <- page_calls_cons.
      cbn [seq map concat]. rewrite app_assoc. reflexivity.
    + intros i Hi. replace (S p + i)%nat with (p + S i)%nat by lia.
      apply Hne. lia.
    + replace (S p + k)%nat with (p + S k)%nat by lia. exact Hk.
    + intros i Hi. cbn [http_client set_calls calls net].
      rewrite length_app. cbn [length].
      replace (length (calls w) + 1 + i)%nat with (length (calls w) + S i)%nat by lia.
      replace (S p + i)%nat with (p + S i)%nat by lia.
      apply Hnet. lia.
    + lia.
Qed.

(** C1.  If the endpoint serves the sequence [pages] and page [k] is its
    first empty page, listing the repositories returns the concatenation
    of the pages [0 .. k-1], in that order, after exactly the requests for
    the pages [0 .. k]: no page after [k] is ever asked for, whatever it
    holds. *)
Theorem C1_lister_returns_pages_before_first_empty
    (user : string) (pages : nat -> list value) (k fuel : nat) (w : World) :
  (forall i, (i < k)%nat -> pages i <> []) ->
  pages k = [] ->
  (forall i, (i <= k)%nat ->
     fetched (http_client w)
       (net w (length (calls w) + i)%nat (page_url user i))
     = Ok (VList (pages i))) ->
  (k < fuel)%nat ->
  request_for_public_repositories fuel user w
  = (set_calls (calls w ++ page_calls (http_client w) user 0 (S k)) w,
     Ok (concat (map pages (seq 0 k)))).
Proof.
  intros Hne Hk Hnet Hfuel. unfold request_for_public_repositories.
  rewrite (request_pages_until_empty user pages k fuel [] 0%nat w); auto.
Qed.

(** Neither fetch-JSON nor [+=] can use up the fuel: only the loop can. *)
Lemma fetched_terminates c r : fetched c r <> OutOfFuel.
Proof.
  unfold fetched, decode.
  destruct c, r as [|a]; cbn; try congruence.
  - destruct (json a); congruence.
  - destruct (_ && _); [destruct (json a)|]; congruence.
Qed.

Lemma py_list_iadd_terminates acc v : py_list_iadd acc v <> OutOfFuel.
Proof. destruct v; cbn; congruence. Qed.

Lemma request_pages_stops user :
  forall k fuel acc p w doc,
    fetched (http_client w)
      (net w (length (calls w) + k)%nat (page_url user (p + k)%nat)) = Ok doc ->
    truthy doc = false ->
    (k < fuel)%nat ->
    exists w' r,
      request_pages fuel user acc p w = (w', r) /\ r <> OutOfFuel /\
      (length (calls w') <= length (calls w) + S k)%nat.
Proof.
  induction k as [|k IH]; intros fuel acc p w doc Hdoc Hfalse Hfuel;
    (destruct fuel as [|fuel]; [lia|]); rewrite request_pages_step; cbn zeta.
  - rewrite !Nat.add_0_r in Hdoc. rewrite Hdoc, Hfalse.
    eexists _, _. split; [reflexivity|]. split; [congruence|].
    cbn. rewrite length_app. cbn. lia.
  - destruct (fetched _ (net w (length (calls w)) _)) as [page| |] eqn:Hpage.
    + destruct (truthy page).
      * destruct (py_list_iadd acc page) as [acc'| |] eqn:Hadd.
        -- destruct (IH fuel acc' (S p)
                      (set_calls (calls w ++ [Call (http_client w) FetchJson (page_url user p)]) w)
                      doc) as (w' & r & Hrun & Hr & Hlen).
           ++ cbn [http_client set_calls calls net]. rewrite length_app. cbn [length].
              replace (length (calls w) + 1 + k)%nat with (length (calls w) + S k)%nat by lia.
              replace (S p + k)%nat with (p + S k)%nat by lia. exact Hdoc.
           ++ exact Hfalse.
           ++ lia.
           ++ exists w', r. split; [exact Hrun|]. split; [exact Hr|].
              cbn [set_calls calls] in Hlen. rewrite length_app in Hlen.
              cbn [length] in Hlen. lia.
        -- eexists _, _. split; [reflexivity|]. split; [congruence|].
           cbn. rewrite length_app. cbn. lia.
        -- exfalso. exact (py_list_iadd_terminates _ _ Hadd).
      * eexists _, _. split; [reflexivity|]. split; [congruence|].
        cbn. rewrite length_app. cbn. lia.
    + eexists _, _. split; [reflexivity|]. split; [congruence|].
      cbn. rewrite length_app. cbn. lia.
    + exfalso. exact (fetched_terminates _ _ Hpage).
Qed.

(** A page that is a non-empty object passes the test of the loop: its keys
    are appended and the next page is asked for. *)
Lemma request_pages_goes_on_after_object fuel user acc p w d :
  d <> [] ->
  fetched (http_client w) (net w (length (calls w)) (page_url user p))
  = Ok (VDict d) ->
  request_pages (S fuel) user acc p w
  = request_pages fuel user (acc ++ map (fun kv => VStr (fst kv)) d) (S p)
      (set_calls (calls w ++ [Call (http_client w) FetchJson (page_url user p)]) w).
Proof.
  intros Hd Hdoc. rewrite request_pages_step. cbn zeta. rewrite Hdoc.
  destruct d; [congruence|]. reflexivity.
Qed.

Lemma request_pages_never_stops user d :
  d <> [] ->
  forall fuel acc p w,
    (forall n url, fetched (http_client w) (net w n url) = Ok (VDict d)) ->
    snd (request_pages fuel user acc p w) = OutOfFuel.
Proof.
  intros Hd. induction fuel as [|fuel IH]; intros acc p w Hnet.
  - reflexivity.
  - rewrite (request_pages_goes_on_after_object _ _ _ _ _ d Hd (Hnet _ _)).
    apply IH. exact Hnet.
Qed.

(** C5, as amended.  The loop of the Lister stops as soon as a page is an
    empty sequence, or any other document that Python takes for false:
    with the page [k] such a document, the loop is over after at most
    [k + 1] requests.  A non-empty object, such as an error document, is
    taken for true: the loop appends its keys and asks for the next page. *)
Theorem C5_loop_stops_at_falsy_page_only :
  (forall user k fuel w doc,
     fetched (http_client w)
       (net w (length (calls w) + k)%nat (page_url user k)) = Ok doc ->
     truthy doc = false ->
     (k < fuel)%nat ->
     exists w' r,
       request_for_public_repositories fuel user w = (w', r) /\
       r <> OutOfFuel /\
       (length (calls w') <= length (calls w) + S k)%nat) /\
  (forall user fuel acc p w d,
     d <> [] ->
     fetched (http_client w) (net w (length (calls w)) (page_url user p))
     = Ok (VDict d) ->
     request_pages (S fuel) user acc p w
     = request_pages fuel user (acc ++ map (fun kv => VStr (fst kv)) d) (S p)
         (set_calls
            (calls w ++ [Call (http_client w) FetchJson (page_url user p)]) w)).
Proof.
  split.
  - intros user k fuel w doc Hdoc Hfalse Hfuel.
    unfold request_for_public_repositories.
    apply (request_pages_stops user k fuel [] 0%nat w doc); assumption.
  - intros. apply request_pages_goes_on_after_object; assumption.
Qed.

(** ** What no step of the script changes *)

Lemma later_refl w : later w w.
Proof.
  repeat split. exists []. rewrite app_nil_r. split; [reflexivity|constructor].
Qed.

Lemma later_trans w1 w2 w3 : later w1 w2 -> later w2 w3 -> later w1 w3.
Proof.
  intros (Hc & Hn & Hd & Hk & cs & Hcs & Hvia)
         (Hc' & Hn' & Hd' & Hk' & cs' & Hcs' & Hvia').
  repeat split; try congruence.
  exists (cs ++ cs'). split.
  - rewrite Hcs', Hcs, app_assoc. reflexivity.
  - apply Forall_app. split; [exact Hvia|].
    rewrite Hc in Hvia'. exact Hvia'.
Qed.

Lemma later_set_fs f w : later w (set_fs f w).
Proof.
  repeat split. exists []. cbn. rewrite app_nil_r.
  split; [reflexivity|constructor].
Qed.

Lemma later_set_stdout o w : later w (set_stdout o w).
Proof.
  repeat split. exists []. cbn. rewrite app_nil_r.
  split; [reflexivity|constructor].
Qed.

Lemma later_set_ticks n w : later w (set_ticks n w).
Proof.
  repeat split. exists []. cbn. rewrite app_nil_r.
  split; [reflexivity|constructor].
Qed.

Lemma later_call o url w :
  later w (set_calls (calls w ++ [Call (http_client w) o url]) w).
Proof.
  repeat split. exists [Call (http_client w) o url].
  split; [reflexivity|]. repeat constructor.
Qed.

Create HintDb steady.

Lemma steady_ret {A} (a : A) : steady (ret a).
Proof. intros w. apply later_refl. Qed.

Lemma steady_lift {A} (o : outcome A) : steady (lift o).
Proof. intros w. apply later_refl. Qed.

Lemma steady_diverge {A} : steady (@diverge A).
Proof. intros w. apply later_refl. Qed.

Lemma steady_bind {A B} (m : M A) (k : A -> M B) :
  steady m -> (forall a, steady (k a)) -> steady (bind m k).
Proof.
  intros Hm Hk w. unfold bind. specialize (Hm w).
  destruct (m w) as [w1 [a| |]]; cbn [fst] in *; try exact Hm.
  eapply later_trans; [exact Hm | apply Hk].
Qed.

Lemma steady_emit msg : steady (logging.emit msg).
Proof. intros w. apply later_set_stdout. Qed.

Lemma steady_strftime fmt : steady (time.strftime fmt).
Proof. intros w. apply later_set_ticks. Qed.

Lemma steady_abspath p : steady (os.path_abspath p).
Proof. intros w. apply later_refl. Qed.

Lemma steady_exists p : steady (os.path_exists p).
Proof. intros w. apply later_refl. Qed.

Lemma steady_makedirs p : steady (os.makedirs p).
Proof.
  intros w. unfold os.makedirs.
  destruct (os.makedirs_up _ _); cbn [fst];
    [apply later_set_fs | apply later_refl | apply later_refl].
Qed.

Lemma steady_write_binary p content : steady (os.write_binary p content).
Proof.
  intros w. unfold os.write_binary.
  destruct (os.write_node _ _ _); cbn [fst];
    [apply later_set_fs | apply later_refl | apply later_refl].
Qed.

Lemma steady_request_for_json url : steady (http_client_request_for_json url).
Proof. intros w. rewrite request_for_json_spec. apply later_call. Qed.

#[local] Hint Resolve steady_ret steady_lift steady_diverge steady_emit
  steady_strftime steady_abspath steady_exists steady_makedirs
  steady_write_binary steady_request_for_json : steady.

Ltac steady_steps :=
  repeat first
    [ progress auto with steady
    | apply steady_bind; [|intros ?]
    | match goal with |- steady (if ?b then _ else _) => destruct b end ].

(** download-file sends at most one request, under the class of the
    client; apart from that it touches the file system only. *)
Lemma download_file_spec url directory name w :
  exists cs f r,
    http_client_download_file url directory name w
    = (set_fs f (set_calls (calls w ++ cs) w), r) /\
    (cs = [] \/ cs = [Call (http_client w) DownloadFile url]).
Proof.
  unfold http_client_download_file.
  destruct (http_client w) eqn:Hc.
  - unfold RequestsHttpClient.download_file, requests.get, bind, send, lift.
    destruct (net w (length (calls w)) url) as [|a]; cbn.
    + exists [Call RequestsHttpClient DownloadFile url], (fs w), (Raise ConnectionError).
      split; [reflexivity|right; reflexivity].
    + destruct (status_code a =? 200).
      * destruct (py_add_str name ".zip") as [file_name| |]; cbn;
          try (eexists [_], (fs w), _; split; [reflexivity|right; reflexivity]).
        unfold os.write_binary. cbn [cwd fs set_calls].
        destruct (os.write_node _ _ _) as [f| |];
          try (eexists [_], (fs w), _; split; [reflexivity|right; reflexivity]).
        eexists [_], f, _; split; [reflexivity|right; reflexivity].
      * eexists [_], (fs w), _; split; [reflexivity|right; reflexivity].
  - unfold UrllibHttpClient.download_file, bind, lift.
    destruct (py_add_str name ".zip") as [file_name| |];
      try (exists [], (fs w); eexists; split; [|left; reflexivity];
           rewrite app_nil_r; destruct w; reflexivity).
    unfold urllib.urlretrieve, urllib.urlopen, bind, send, lift.
    destruct (urllib.received _) as [a| |];
      try (eexists [_], (fs w), _; split; [reflexivity|right; reflexivity]).
    unfold os.write_binary. cbn [cwd fs set_calls].
    destruct (os.write_node _ _ _) as [f| |];
      try (eexists [_], (fs w), _; split; [reflexivity|right; reflexivity]).
    eexists [_], f, _; split; [reflexivity|right; reflexivity].
Qed.

Lemma steady_download_file url directory name :
  steady (http_client_download_file url directory name).
Proof.
  intros w.
  destruct (download_file_spec url directory name w) as (cs & f & r & -> & Hcs).
  cbn [fst]. repeat split. exists cs. split; [reflexivity|].
  destruct Hcs as [-> | ->]; repeat constructor.
Qed.

#[local] Hint Resolve steady_download_file : steady.

Lemma steady_create_directory user : steady (create_directory_if_not_exist user).
Proof. unfold create_directory_if_not_exist, logging.info. steady_steps. Qed.

Lemma steady_request_pages user :
  forall fuel acc p, steady (request_pages fuel user acc p).
Proof.
  induction fuel as [|fuel IH]; intros acc p; cbn [request_pages].
  - auto with steady.
  - unfold request_for_page. steady_steps; apply IH.
Qed.

#[local] Hint Resolve steady_create_directory steady_request_pages : steady.

Section Steady.

Context `{Interpreter}.

Lemma steady_save_repositories directory :
  forall repositories, steady (save_repositories repositories directory).
Proof.
  induction repositories as [|r rest IH]; cbn [save_repositories].
  - auto with steady.
  - unfold logging.info. steady_steps; apply IH.
Qed.

Lemma steady_print_each :
  forall repositories, steady (print_each repositories).
Proof.
  induction repositories as [|r rest IH]; cbn [print_each].
  - auto with steady.
  - unfold logging.info. steady_steps; apply IH.
Qed.

Lemma steady_main fuel user : steady (main fuel user).
Proof.
  unfold main, print_received_repositories, request_for_public_repositories,
    logging.info.
  pose proof steady_save_repositories. pose proof steady_print_each.
  steady_steps; intros w; apply later_set_stdout.
Qed.

End Steady.

(** ** The Gateway *)

Section Gateway.

Context `{Interpreter}.

(** C8.  Loading the module binds [http_client] once: to the requests
    client when [import requests] works, and nothing is printed; to the
    urllib client when it raises [ImportError], after the two lines of
    the fallback notice on standard output.  The global is the same at
    the end of the run, and every request of the run, for fetch-JSON or
    download-file, was sent by the client of that class. *)
Theorem C8_one_client_for_the_whole_run (h : Host) (fuel : nat) (user : string) :
  let w0 := load_module h in
  let w' := fst (run fuel h user) in
  match import_requests h with
  | None => http_client w0 = RequestsHttpClient /\ stdout w0 = []
  | Some e =>
      http_client w0 = UrllibHttpClient /\
      stdout w0 = ["Unable to initialize requests http client, " +:+ e;
                   "Fallback to urllib client..."]
  end /\
  http_client w' = http_client w0 /\
  Forall (fun c => via c = http_client w0) (calls w').
Proof.
  cbn zeta. split.
  - unfold load_module. destruct (import_requests h); split; reflexivity.
  - unfold run.
    destruct (steady_main fuel user (load_module h))
      as (Hc & _ & _ & _ & cs & Hcs & Hvia).
    split; [exact Hc|]. rewrite Hcs.
    apply Forall_app. split; [|exact Hvia].
    unfold load_module. destruct (import_requests h); constructor.
Qed.

End Gateway.

(** C3, as amended.  When the answer to a download carries an error
    status, no file is written by either client.  With the requests client
    and any status other than 200, download-file returns normally: a silent
    no-op.  With the urllib client the script does not look at the status,
    but [urlretrieve] does: on a status outside 2xx it raises [HTTPError],
    which download-file lets through. *)
Theorem C3_download_answered_with_error_status
    (url directory repository_name : string) (w : World) (a : Response) :
  net w (length (calls w)) url = Answer a ->
  (status_code a <> 200 ->
   RequestsHttpClient.download_file url directory (VStr repository_name) w
   = (set_calls (calls w ++ [Call RequestsHttpClient DownloadFile url]) w,
      Ok tt)) /\
  (~ (200 <= status_code a < 300) ->
   UrllibHttpClient.download_file url directory (VStr repository_name) w
   = (set_calls (calls w ++ [Call UrllibHttpClient DownloadFile url]) w,
      Raise (HTTPError (status_code a)))).
Proof.
  intros Hnet. split; intros Hstatus.
  - unfold RequestsHttpClient.download_file, requests.get, bind, send, lift.
    rewrite Hnet. cbn.
    destruct (Z.eqb_spec (status_code a) 200); [contradiction|reflexivity].
  - unfold UrllibHttpClient.download_file, urllib.urlretrieve, urllib.urlopen,
      bind, send, lift.
    cbn. rewrite Hnet. cbn.
    destruct (Z.leb_spec 200 (status_code a)), (Z.ltb_spec (status_code a) 300);
      cbn; try reflexivity.
    exfalso. apply Hstatus. lia.
Qed.

(** ** download-file, client by client *)

Lemma requests_download_file_spec url directory name w :
  RequestsHttpClient.download_file url directory name w
  = let w1 := set_calls (calls w ++ [Call RequestsHttpClient DownloadFile url]) w in
    match net w (length (calls w)) url with
    | Unreachable => (w1, Raise ConnectionError)
    | Answer a =>
        if status_code a =? 200 then
          match py_add_str name ".zip" with
          | Ok file_name =>
              match os.write_node
                      (os.resolve (cwd w) (os.path_join directory file_name))
                      (raw a) (fs w) with
              | Ok f => (set_fs f w1, Ok tt)
              | Raise e => (w1, Raise e)
              | OutOfFuel => (w1, OutOfFuel)
              end
          | Raise e => (w1, Raise e)
          | OutOfFuel => (w1, OutOfFuel)
          end
        else (w1, Ok tt)
    end.
Proof.
  unfold RequestsHttpClient.download_file, requests.get, bind, send, lift.
  destruct (net w (length (calls w)) url) as [|a]; cbn; [reflexivity|].
  destruct (status_code a =? 200); [|reflexivity].
  destruct (py_add_str name ".zip"); reflexivity.
Qed.

Lemma urllib_download_file_spec url directory name w :
  UrllibHttpClient.download_file url directory (VStr name) w
  = let w1 := set_calls (calls w ++ [Call UrllibHttpClient DownloadFile url]) w in
    match urllib.received (net w (length (calls w)) url) with
    | Ok a =>
        match os.write_node
                (os.resolve (cwd w) (os.path_join directory (name +:+ ".zip")))
                (raw a) (fs w) with
        | Ok f => (set_fs f w1, Ok tt)
        | Raise e => (w1, Raise e)
        | OutOfFuel => (w1, OutOfFuel)
        end
    | Raise e => (w1, Raise e)
    | OutOfFuel => (w1, OutOfFuel)
    end.
Proof.
  unfold UrllibHttpClient.download_file, urllib.urlretrieve, urllib.urlopen,
    bind, send, lift.
  cbn. destruct (urllib.received _); reflexivity.
Qed.

Lemma write_node_ok p content f :
  os.lookup_node f p <> Some Dir ->
  os.lookup_node f (removelast p) = Some Dir ->
  os.write_node p content f = Ok (<[p := File content]> f).
Proof.
  intros Hp Hparent. unfold os.write_node. rewrite Hparent.
  destruct (os.lookup_node f p) as [[|c]|]; [congruence|reflexivity..].
Qed.

(** ** The Exporter *)

Section Exporter.

Context `{Interpreter}.

(** The first record, when it has both fields. *)
Lemma save_repositories_cons d n u rest directory w :
  py_dict_get d "name" = Some n ->
  py_dict_get d "html_url" = Some u ->
  save_repositories (VDict d :: rest) directory w
  = bind (http_client_download_file (zipball_url u) directory n)
      (fun _ => save_repositories rest directory)
      (set_stdout
         (stdout w ++ ["Saving repository " +:+ py_str n +:+ " to " +:+ directory])
         w).
Proof.
  intros Hn Hu. cbn [save_repositories].
  unfold bind at 1 2 3, lift, py_getitem. rewrite Hn, Hu. reflexivity.
Qed.

Lemma save_repositories_app pre rest directory :
  forall w,
    save_repositories (pre ++ rest) directory w
    = bind (save_repositories pre directory)
        (fun _ => save_repositories rest directory) w.
Proof.
  induction pre as [|r pre IH]; intros w.
  - reflexivity.
  - cbn [app save_repositories]. unfold bind, lift in *.
    destruct (py_getitem r "name") as [n| |]; try reflexivity.
    destruct (py_getitem r "html_url") as [u| |]; try reflexivity.
    destruct (logging.info _ w) as [w0 [[]| |]]; try reflexivity.
    destruct (http_client_download_file _ _ _ _) as [w1 [[]| |]];
      try reflexivity.
    apply IH.
Qed.

(** C4.  For a record named "foo" at https://github.com/alice/foo, the
    Exporter sends exactly one request, a download from
    https://github.com/alice/foo/zipball/master/ ; when it is answered
    with status 200 and the file can be opened, the run of the Exporter
    succeeds and changes the file system at one place only: the file
    foo.zip of the directory, which holds the body of the answer. *)
Theorem C4_one_request_and_one_file
    (d : list (string * value)) (directory : string) (w : World) :
  py_dict_get d "name" = Some (VStr "foo") ->
  py_dict_get d "html_url" = Some (VStr "https://github.com/alice/foo") ->
  let url := "https://github.com/alice/foo/zipball/master/" in
  let target := os.resolve (cwd w) (os.path_join directory "foo.zip") in
  let w' := fst (save_repositories [VDict d] directory w) in
  calls w' = calls w ++ [Call (http_client w) DownloadFile url] /\
  (forall a,
     net w (length (calls w)) url = Answer a ->
     status_code a = 200 ->
     os.lookup_node (fs w) target <> Some Dir ->
     os.lookup_node (fs w) (removelast target) = Some Dir ->
     snd (save_repositories [VDict d] directory w) = Ok tt /\
     fs w' = <[target := File (raw a)]> (fs w)).
Proof.
  intros Hn Hu. cbn zeta.
  rewrite (save_repositories_cons d _ _ [] directory w Hn Hu).
  change (zipball_url (VStr "https://github.com/alice/foo"))
    with "https://github.com/alice/foo/zipball/master/".
  set (url := "https://github.com/alice/foo/zipball/master/").
  set (w0 := set_stdout _ w).
  unfold bind, http_client_download_file.
  change (http_client w0) with (http_client w).
  destruct (http_client w) eqn:Hc.
  - rewrite requests_download_file_spec. cbn zeta.
    change (net w0) with (net w). change (calls w0) with (calls w).
    change (cwd w0) with (cwd w). change (fs w0) with (fs w).
    change (py_add_str (VStr "foo") ".zip") with (@Ok string "foo.zip").
    split.
    + destruct (net w (length (calls w)) url) as [|a]; [reflexivity|].
      destruct (status_code a =? 200); [|reflexivity].
      destruct (os.write_node _ _ _); reflexivity.
    + intros a Ha Hs Hfree Hparent. rewrite Ha, Hs. cbn [Z.eqb Pos.eqb].
      rewrite (write_node_ok _ _ _ Hfree Hparent). cbn. split; reflexivity.
  - rewrite urllib_download_file_spec. cbn zeta.
    change (net w0) with (net w). change (calls w0) with (calls w).
    change (cwd w0) with (cwd w). change (fs w0) with (fs w).
    change ("foo" +:+ ".zip") with "foo.zip".
    split.
    + destruct (urllib.received _); try reflexivity.
      destruct (os.write_node _ _ _); reflexivity.
    + intros a Ha Hs Hfree Hparent. rewrite Ha. unfold urllib.received.
      rewrite Hs. cbn [Z.leb Z.ltb Z.compare Pos.compare Pos.compare_cont andb].
      rewrite (write_node_ok _ _ _ Hfree Hparent). cbn. split; reflexivity.
Qed.

End Exporter.

(** ** The run, stage by stage *)

Section Run.

Context `{Interpreter}.

Lemma main_stages fuel user w :
  main fuel user w
  = bind (before_downloads fuel user)
      (fun rd => save_repositories (fst rd) (snd rd) ;;;
                 logging.info "Completed") w.
Proof.
  unfold main, before_downloads, before_listing, bind, ret.
  destruct (logging.info _ w) as [w1 [[]| |]]; try reflexivity.
  destruct (create_directory_if_not_exist user w1) as [w2 [d| |]];
    try reflexivity.
  destruct (logging.info _ w2) as [w3 [[]| |]]; try reflexivity.
  destruct (request_for_public_repositories fuel user w3)
    as [w4 [repositories| |]]; try reflexivity.
  destruct (print_received_repositories repositories w4) as [w5 [[]| |]];
    reflexivity.
Qed.

(** Whatever stops the Exporter stops the run, in the same state. *)
Lemma main_stopped_in_downloads fuel user w w3 repositories directory w4 r :
  before_downloads fuel user w = (w3, Ok (repositories, directory)) ->
  save_repositories repositories directory w3 = (w4, r) ->
  r <> Ok tt ->
  main fuel user w = (w4, r).
Proof.
  intros Hbefore Hsave Hr. rewrite main_stages.
  rewrite (bind_ok _ _ _ _ _ Hbefore). cbn [fst snd].
  unfold bind. rewrite Hsave. destruct r as [[]| |]; [congruence|reflexivity..].
Qed.

Lemma main_after_downloads fuel user w w3 repositories directory w4 :
  before_downloads fuel user w = (w3, Ok (repositories, directory)) ->
  save_repositories repositories directory w3 = (w4, Ok tt) ->
  main fuel user w = (set_stdout (stdout w4 ++ ["Completed"]) w4, Ok tt).
Proof.
  intros Hbefore Hsave. rewrite main_stages.
  rewrite (bind_ok _ _ _ _ _ Hbefore). cbn [fst snd].
  rewrite (bind_ok _ _ _ _ _ Hsave). reflexivity.
Qed.

(** The Exporter logs its own lines only. *)
Lemma save_repositories_stdout directory :
  forall repositories w,
  exists lines,
    stdout (fst (save_repositories repositories directory w))
    = stdout w ++ lines /\
    Forall (fun l => l <> "Completed") lines.
Proof.
  induction repositories as [|r rest IH]; intros w.
  - exists []. cbn. rewrite app_nil_r. split; [reflexivity|constructor].
  - cbn [save_repositories]. unfold bind, lift.
    destruct (py_getitem r "name") as [n| |];
      try (exists []; cbn; rewrite app_nil_r; split; [reflexivity|constructor]).
    destruct (py_getitem r "html_url") as [u| |];
      try (exists []; cbn; rewrite app_nil_r; split; [reflexivity|constructor]).
    unfold logging.info, logging.emit.
    set (line := "Saving repository " +:+ py_str n +:+ " to " +:+ directory).
    assert (Hline : line <> "Completed") by (subst line; cbn; discriminate).
    destruct (download_file_spec (zipball_url u) directory n
                (set_stdout (stdout w ++ [line]) w))
      as (cs & f & o & -> & _).
    destruct o as [[]| |];
      try (exists [line]; cbn; split; [reflexivity|repeat constructor; exact Hline]).
    destruct (IH (set_fs f (set_calls
                (calls (set_stdout (stdout w ++ [line]) w) ++ cs)
                (set_stdout (stdout w ++ [line]) w))))
      as (lines & Hlines & Hall).
    exists (line :: lines). split.
    + rewrite Hlines. cbn. rewrite <- app_assoc. reflexivity.
    + constructor; assumption.
Qed.

(** C9.  A record that lacks the key 'name' or the key 'html_url' makes
    the Exporter raise [KeyError] when it comes to it, that is when the
    records before it were exported without an exception: the state is
    the one these records left, nothing of the record or of those after
    it is done, and the exception ends [main] as well. *)
Theorem C9_missing_key_raises_KeyError
    (pre post : list value) (d : list (string * value))
    (directory : string) (w w1 : World) :
  py_dict_get d "name" = None \/ py_dict_get d "html_url" = None ->
  save_repositories pre directory w = (w1, Ok tt) ->
  exists key,
    (key = "name" \/ key = "html_url") /\ py_dict_get d key = None /\
    save_repositories (pre ++ VDict d :: post) directory w
    = (w1, Raise (KeyError key)) /\
    forall fuel user w0,
      before_downloads fuel user w0
      = (w, Ok (pre ++ VDict d :: post, directory)) ->
      main fuel user w0 = (w1, Raise (KeyError key)).
Proof.
  intros Hmissing Hpre.
  assert (Hraise : exists key,
             (key = "name" \/ key = "html_url") /\ py_dict_get d key = None /\
             save_repositories (pre ++ VDict d :: post) directory w
             = (w1, Raise (KeyError key))).
  { rewrite save_repositories_app, (bind_ok _ _ _ _ _ Hpre).
    cbn [save_repositories]. unfold bind, lift, py_getitem.
    destruct (py_dict_get d "name") as [n|] eqn:Hn.
    - destruct Hmissing as [Hm|Hm]; [discriminate|]. rewrite Hm.
      exists "html_url". auto.
    - exists "name". auto. }
  destruct Hraise as (key & Hkey & Hnone & Hsave).
  exists key. repeat split; try assumption.
  intros fuel user w0 Hbefore.
  apply (main_stopped_in_downloads _ _ _ _ _ _ _ _ Hbefore Hsave). discriminate.
Qed.

End Run.

Section Failures.

Context `{Interpreter}.

(** With the requests client, downloads that are each answered with a
    status other than 200 leave the file system as it is and raise
    nothing.  The download of the record at position [i] is the [i]-th
    request from the current state on. *)
Lemma save_repositories_all_refused directory :
  forall repositories w,
    http_client w = RequestsHttpClient ->
    (forall i r,
       repositories !! i = Some r ->
       exists d n u a,
         r = VDict d /\ py_dict_get d "name" = Some n /\
         py_dict_get d "html_url" = Some u /\
         net w (length (calls w) + i)%nat (zipball_url u) = Answer a /\
         status_code a <> 200) ->
    exists w', save_repositories repositories directory w = (w', Ok tt) /\
               fs w' = fs w.
Proof.
  induction repositories as [|r rest IH]; intros w Hc Hall.
  - exists w. split; reflexivity.
  - destruct (Hall 0%nat r eq_refl) as (d & n & u & a & -> & Hn & Hu & Hnet & Hs).
    rewrite Nat.add_0_r in Hnet.
    rewrite (save_repositories_cons d n u rest directory w Hn Hu).
    unfold bind, http_client_download_file. cbn [http_client set_stdout].
    rewrite Hc, requests_download_file_spec. cbn zeta. cbn [net set_stdout calls].
    rewrite Hnet.
    destruct (Z.eqb_spec (status_code a) 200); [contradiction|].
    match goal with
    | |- exists _, save_repositories _ _ ?w1 = _ /\ _ =>
        destruct (IH w1 Hc) as (w' & Hsave & Hfs)
    end.
    + intros i r Hr. cbn [net calls set_calls set_stdout].
      rewrite length_app. cbn [length].
      replace (length (calls w) + 1 + i)%nat with (length (calls w) + S i)%nat by lia.
      apply (Hall (S i) r). exact Hr.
    + exists w'. split; [exact Hsave | exact Hfs].
Qed.

(** A download that finds the network unreachable raises, whatever the
    client. *)
Lemma save_repositories_unreachable d n u rest directory w :
  py_dict_get d "name" = Some (VStr n) ->
  py_dict_get d "html_url" = Some u ->
  net w (length (calls w)) (zipball_url u) = Unreachable ->
  snd (save_repositories (VDict d :: rest) directory w) = Raise ConnectionError.
Proof.
  intros Hn Hu Hnet.
  rewrite (save_repositories_cons d _ u rest directory w Hn Hu).
  unfold bind, http_client_download_file. cbn [http_client set_stdout].
  destruct (http_client w).
  - rewrite requests_download_file_spec. cbn zeta. cbn [net set_stdout calls].
    rewrite Hnet. reflexivity.
  - rewrite urllib_download_file_spec. cbn zeta. cbn [net set_stdout calls].
    rewrite Hnet. reflexivity.
Qed.

(** With the urllib client, so does a download answered with a status
    outside 2xx. *)
Lemma save_repositories_http_error d n u rest directory w a :
  http_client w = UrllibHttpClient ->
  py_dict_get d "name" = Some (VStr n) ->
  py_dict_get d "html_url" = Some u ->
  net w (length (calls w)) (zipball_url u) = Answer a ->
  ~ (200 <= status_code a < 300) ->
  snd (save_repositories (VDict d :: rest) directory w)
  = Raise (HTTPError (status_code a)).
Proof.
  intros Hc Hn Hu Hnet Hs.
  rewrite (save_repositories_cons d _ u rest directory w Hn Hu).
  unfold bind, http_client_download_file. cbn [http_client set_stdout].
  rewrite Hc, urllib_download_file_spec. cbn zeta. cbn [net set_stdout calls].
  rewrite Hnet. unfold urllib.received.
  destruct (Z.leb_spec 200 (status_code a)), (Z.ltb_spec (status_code a) 300);
    cbn; try reflexivity.
  exfalso. apply Hs. lia.
Qed.

(** The Exporter leaves the class of the client and the network as they
    are. *)
Lemma save_repositories_later directory repositories w w' r :
  save_repositories repositories directory w = (w', r) ->
  http_client w' = http_client w /\ net w' = net w.
Proof.
  intros Hsave.
  pose proof (steady_save_repositories directory repositories w)
    as (Hc & Hn & _).
  rewrite Hsave in Hc, Hn. split; assumption.
Qed.

(** C2, as amended.  In a run that reaches the download loop, nothing
    catches an exception raised inside a download: whatever outcome other
    than a normal return the Exporter has is the outcome of [main], in
    the state the Exporter left, where "Completed" was not logged.  Such
    exceptions do occur, at any record of the list once the records
    before it were exported: [ConnectionError] under either client when
    the network cannot be reached, [HTTPError] under the urllib client for
    a status outside 2xx.  "Completed" is logged when every download
    returns normally, which under the requests client includes the
    downloads answered with a status other than 200, even all of them: no
    file is written then. *)
Theorem C2_download_errors_are_not_swallowed
    (fuel : nat) (user : string) (w w3 : World)
    (repositories : list value) (directory : string) :
  before_downloads fuel user w = (w3, Ok (repositories, directory)) ->
  (forall w4 r,
     save_repositories repositories directory w3 = (w4, r) ->
     r <> Ok tt ->
     main fuel user w = (w4, r) /\
     exists lines, stdout w4 = stdout w3 ++ lines /\
                   Forall (fun l => l <> "Completed") lines) /\
  (forall w4,
     save_repositories repositories directory w3 = (w4, Ok tt) ->
     main fuel user w = (set_stdout (stdout w4 ++ ["Completed"]) w4, Ok tt)) /\
  (http_client w3 = RequestsHttpClient ->
   (forall i r,
      repositories !! i = Some r ->
      exists d n u a,
        r = VDict d /\ py_dict_get d "name" = Some n /\
        py_dict_get d "html_url" = Some u /\
        net w3 (length (calls w3) + i)%nat (zipball_url u) = Answer a /\
        status_code a <> 200) ->
   exists w4,
     main fuel user w = (set_stdout (stdout w4 ++ ["Completed"]) w4, Ok tt) /\
     fs w4 = fs w3) /\
  (forall pre d n u rest w5,
     repositories = pre ++ VDict d :: rest ->
     save_repositories pre directory w3 = (w5, Ok tt) ->
     py_dict_get d "name" = Some (VStr n) ->
     py_dict_get d "html_url" = Some u ->
     net w5 (length (calls w5)) (zipball_url u) = Unreachable ->
     exists w4 lines,
       main fuel user w = (w4, Raise ConnectionError) /\
       stdout w4 = stdout w3 ++ lines /\
       Forall (fun l => l <> "Completed") lines) /\
  (forall pre d n u rest w5 a,
     repositories = pre ++ VDict d :: rest ->
     save_repositories pre directory w3 = (w5, Ok tt) ->
     http_client w3 = UrllibHttpClient ->
     py_dict_get d "name" = Some (VStr n) ->
     py_dict_get d "html_url" = Some u ->
     net w5 (length (calls w5)) (zipball_url u) = Answer a ->
     ~ (200 <= status_code a < 300) ->
     exists w4 lines,
       main fuel user w = (w4, Raise (HTTPError (status_code a))) /\
       stdout w4 = stdout w3 ++ lines /\
       Forall (fun l => l <> "Completed") lines).
Proof.
  intros Hbefore.
  assert (Hstopped : forall w4 r,
            save_repositories repositories directory w3 = (w4, r) ->
            r <> Ok tt ->
            main fuel user w = (w4, r) /\
            exists lines, stdout w4 = stdout w3 ++ lines /\
                          Forall (fun l => l <> "Completed") lines).
  { intros w4 r Hsave Hr. split.
    - exact (main_stopped_in_downloads _ _ _ _ _ _ _ _ Hbefore Hsave Hr).
    - destruct (save_repositories_stdout directory repositories w3)
        as (lines & Hlines & Hall).
      exists lines. rewrite Hsave in Hlines. split; assumption. }
  assert (Hat : forall pre d rest w5 e,
            repositories = pre ++ VDict d :: rest ->
            save_repositories pre directory w3 = (w5, Ok tt) ->
            snd (save_repositories (VDict d :: rest) directory w5) = Raise e ->
            exists w4 lines,
              main fuel user w = (w4, Raise e) /\
              stdout w4 = stdout w3 ++ lines /\
              Forall (fun l => l <> "Completed") lines).
  { intros pre d rest w5 e -> Hpre Hraise.
    destruct (save_repositories (VDict d :: rest) directory w5) as [w4 r] eqn:E.
    cbn [snd] in Hraise. subst r.
    assert (Hsave : save_repositories (pre ++ VDict d :: rest) directory w3
                    = (w4, Raise e)).
    { rewrite save_repositories_app, (bind_ok _ _ _ _ _ Hpre). exact E. }
    destruct (Hstopped w4 (Raise e) Hsave ltac:(discriminate))
      as (Hmain & lines & Hlines & Hall).
    exists w4, lines. repeat split; assumption. }
  split; [exact Hstopped|]. split; [|split; [|split]].
  - intros w4 Hsave. exact (main_after_downloads _ _ _ _ _ _ _ Hbefore Hsave).
  - intros Hc Hrefused.
    destruct (save_repositories_all_refused directory repositories w3 Hc Hrefused)
      as (w4 & Hsave & Hfs).
    exists w4. split; [|exact Hfs].
    exact (main_after_downloads _ _ _ _ _ _ _ Hbefore Hsave).
  - intros pre d n u rest w5 Hrepos Hpre Hn Hu Hnet.
    apply (Hat pre d rest w5 ConnectionError Hrepos Hpre).
    exact (save_repositories_unreachable d n u rest directory w5 Hn Hu Hnet).
  - intros pre d n u rest w5 a Hrepos Hpre Hc Hn Hu Hnet Hs.
    apply (Hat pre d rest w5 (HTTPError (status_code a)) Hrepos Hpre).
    apply (save_repositories_http_error d n u rest directory w5 a); try assumption.
    destruct (save_repositories_later _ _ _ _ _ Hpre) as (Hc5 & _).
    rewrite Hc5. exact Hc.
Qed.

End Failures.

(** ** Paths *)

Lemma append_cons (x : ascii) (a b : string) :
  String x a +:+ b = String x (a +:+ b).
Proof. reflexivity. Qed.

Lemma append_assoc (a b c : string) : (a +:+ b) +:+ c = a +:+ (b +:+ c).
Proof.
  induction a as [|x a IH]; [reflexivity|].
  rewrite !append_cons, IH. reflexivity.
Qed.

Lemma append_empty_r (a : string) : a +:+ "" = a.
Proof.
  induction a as [|x a IH]; [reflexivity|]. rewrite append_cons, IH. reflexivity.
Qed.

Lemma length_append (a b : string) :
  String.length (a +:+ b) = (String.length a + String.length b)%nat.
Proof.
  induction a as [|x a IH]; [reflexivity|].
  rewrite append_cons. cbn [String.length]. rewrite IH. reflexivity.
Qed.

Lemma slash_free_append (a b : string) :
  slash_free (a +:+ b) = slash_free a && slash_free b.
Proof.
  induction a as [|x a IH]; [reflexivity|].
  rewrite append_cons. cbn [slash_free]. rewrite IH, andb_assoc. reflexivity.
Qed.

(** Reading a component that holds no separator. *)
Lemma walk_component c :
  slash_free c = true ->
  forall rest comp stack,
    os.walk (c +:+ rest) comp stack = os.walk rest (comp +:+ c) stack.
Proof.
  induction c as [|x c IH]; intros Hc rest comp stack.
  - rewrite append_empty_r. reflexivity.
  - rewrite append_cons. cbn [os.walk].
    cbn [slash_free] in Hc. apply andb_true_iff in Hc as [Hx Hc].
    apply negb_true_iff in Hx. rewrite Hx.
    rewrite (IH Hc), append_assoc. reflexivity.
Qed.

Lemma enter_plain c stack : plain_component c -> os.enter c stack = stack ++ [c].
Proof.
  intros (_ & H0 & H1 & H2). unfold os.enter.
  apply String.eqb_neq in H0, H1, H2. rewrite H0, H1, H2. reflexivity.
Qed.

Lemma prefix_slash_plain c : plain_component c -> String.prefix "/" c = false.
Proof.
  intros (Hs & H0 & _). destruct c as [|x c]; [congruence|].
  cbn [slash_free] in Hs. apply andb_true_iff in Hs as [Hx _].
  apply negb_true_iff in Hx.
  cbn [String.prefix]. destruct (ascii_dec "/" x) as [<-|]; [discriminate|reflexivity].
Qed.

(** A plain name resolves to the entry of that name in the working
    directory. *)
Lemma resolve_plain wd c : plain_component c -> os.resolve wd c = wd ++ [c].
Proof.
  intros Hc. unfold os.resolve. rewrite (prefix_slash_plain c Hc).
  rewrite <- (append_empty_r c) at 1.
  rewrite walk_component by apply Hc. cbn [os.walk].
  change ("" +:+ c) with c. apply enter_plain, Hc.
Qed.

Lemma walk_rendered :
  forall cs comp stack,
    Forall plain_component cs ->
    os.walk (fold_right (fun c r => "/" +:+ c +:+ r) "" cs) comp stack
    = os.enter comp stack ++ cs.
Proof.
  induction cs as [|c cs IH]; intros comp stack Hcs; cbn [fold_right].
  - cbn. rewrite app_nil_r. reflexivity.
  - inversion Hcs as [|? ? Hc Hrest]; subst.
    change ("/" +:+ ?x) with (String "/" x). cbn [os.walk].
    change (Ascii.eqb "/" "/") with true. cbn iota.
    rewrite walk_component by apply Hc. change ("" +:+ c) with c.
    rewrite (IH c (os.enter comp stack) Hrest), (enter_plain c _ Hc).
    rewrite <- app_assoc. reflexivity.
Qed.

Lemma prefix_slash (x : string) : String.prefix "/" ("/" +:+ x) = true.
Proof. destruct x; reflexivity. Qed.

(** An absolute path resolves to the components it was rendered from. *)
Lemma resolve_render wd cs :
  Forall plain_component cs -> os.resolve wd (os.render cs) = cs.
Proof.
  intros Hcs. unfold os.resolve, os.render.
  destruct cs as [|c cs]; [reflexivity|].
  cbn [fold_right]. rewrite prefix_slash.
  apply (walk_rendered (c :: cs) "" [] Hcs).
Qed.

(** ** Dates *)

Lemma pretty_char_digit (x : N) : pretty_N_char (x mod 10)%N = digit x.
Proof.
  unfold digit. pose proof (N.mod_lt x 10) as Hlt.
  remember (x mod 10)%N as m eqn:Hm. clear Hm.
  assert (Hcases : (m = 0 \/ m = 1 \/ m = 2 \/ m = 3 \/ m = 4 \/ m = 5 \/
                    m = 6 \/ m = 7 \/ m = 8 \/ m = 9)%N) by lia.
  repeat (destruct Hcases as [-> | Hcases]; [reflexivity|]).
  subst m. reflexivity.
Qed.

Lemma digit_not_slash (x : N) : Ascii.eqb (digit x) "/" = false.
Proof.
  unfold digit. pose proof (N.mod_lt x 10) as Hlt.
  remember (x mod 10)%N as m eqn:Hm. clear Hm.
  assert (Hcases : (m = 0 \/ m = 1 \/ m = 2 \/ m = 3 \/ m = 4 \/ m = 5 \/
                    m = 6 \/ m = 7 \/ m = 8 \/ m = 9)%N) by lia.
  repeat (destruct Hcases as [-> | Hcases]; [reflexivity|]).
  subst m. reflexivity.
Qed.

Lemma pretty_one_digit (n : N) :
  (0 < n < 10)%N -> pretty n = String (digit n) "".
Proof.
  intros Hn. unfold pretty, pretty_N. destruct (decide (n = 0)%N); [lia|].
  rewrite pretty_N_go_step by lia.
  rewrite (N.div_small n 10) by lia. rewrite pretty_N_go_0, pretty_char_digit.
  reflexivity.
Qed.

Lemma pretty_two_digits (n : N) :
  (10 <= n < 100)%N -> pretty n = two_digits n.
Proof.
  intros Hn. unfold pretty, pretty_N. destruct (decide (n = 0)%N); [lia|].
  rewrite pretty_N_go_step by lia.
  rewrite pretty_N_go_step by (apply N.div_str_pos; lia).
  rewrite N.Div0.div_div. rewrite (N.div_small n) by lia.
  rewrite pretty_N_go_0, !pretty_char_digit. reflexivity.
Qed.

(** [%Y] of a year of four digits. *)
Lemma pretty_four_digits (y : N) :
  (1000 <= y <= 9999)%N -> pretty y = four_digits y.
Proof.
  intros Hy. unfold pretty, pretty_N. destruct (decide (y = 0)%N); [lia|].
  rewrite pretty_N_go_step by lia.
  rewrite pretty_N_go_step by (apply N.div_str_pos; lia).
  rewrite !N.Div0.div_div.
  rewrite pretty_N_go_step by (apply N.div_str_pos; lia).
  rewrite !N.Div0.div_div.
  rewrite pretty_N_go_step by (apply N.div_str_pos; lia).
  rewrite !N.Div0.div_div.
  rewrite (N.div_small y) by lia.
  rewrite pretty_N_go_0, !pretty_char_digit. reflexivity.
Qed.

(** [%m], [%d], [%H], [%M], [%S]. *)
Lemma pad2_two_digits (n : N) : (n < 100)%N -> time.pad2 n = two_digits n.
Proof.
  intros Hn. unfold time.pad2. destruct (N.ltb_spec n 10) as [Hlt|Hge].
  - unfold two_digits. rewrite (N.div_small n 10) by lia.
    destruct (N.eq_dec n 0%N) as [->|Hpos]; [reflexivity|].
    rewrite pretty_one_digit by lia. reflexivity.
  - apply pretty_two_digits. lia.
Qed.

Lemma format_date (t : struct_time) :
  time.format "%Y-%m-%d" t
  = pretty (tm_year t) +:+ "-" +:+ time.pad2 (tm_mon t)
      +:+ "-" +:+ time.pad2 (tm_mday t).
Proof.
  cbn [time.format]. unfold time.directive. cbn [Ascii.eqb Bool.eqb].
  rewrite append_empty_r. reflexivity.
Qed.

Lemma format_time (t : struct_time) :
  time.format "%H-%M-%S" t
  = time.pad2 (tm_hour t) +:+ "-" +:+ time.pad2 (tm_min t)
      +:+ "-" +:+ time.pad2 (tm_sec t).
Proof.
  cbn [time.format]. unfold time.directive. cbn [Ascii.eqb Bool.eqb].
  rewrite append_empty_r. reflexivity.
Qed.

Lemma slash_free_two_digits (n : N) : slash_free (two_digits n) = true.
Proof. unfold two_digits. cbn [slash_free]. rewrite !digit_not_slash. reflexivity. Qed.

Lemma slash_free_four_digits (n : N) : slash_free (four_digits n) = true.
Proof. unfold four_digits. cbn [slash_free]. rewrite !digit_not_slash. reflexivity. Qed.

(** The name built by the f-string of the script is the name of the
    specification. *)
Lemma formatted_name user date clock_time :
  calendar_time date -> calendar_time clock_time ->
  user +:+ "-Date_" +:+ time.format "%Y-%m-%d" date
       +:+ "-Time_" +:+ time.format "%H-%M-%S" clock_time
  = directory_name user date clock_time.
Proof.
  intros (Hy & Hm & Hd & _) (_ & _ & _ & Hh & Hmin & Hs).
  rewrite format_date, format_time, pretty_four_digits by exact Hy.
  rewrite !pad2_two_digits by lia.
  unfold directory_name. rewrite !append_assoc. reflexivity.
Qed.

Lemma directory_name_plain user date clock_time :
  slash_free user = true ->
  plain_component (directory_name user date clock_time).
Proof.
  intros Hu.
  assert (Hlen : (3 <= String.length (directory_name user date clock_time))%nat).
  { unfold directory_name. rewrite length_append, (length_append "-Date_").
    cbn [String.length]. lia. }
  split; [|repeat split; intros E; rewrite E in Hlen; cbn in Hlen; lia].
  unfold directory_name.
  rewrite !slash_free_append, Hu, !slash_free_two_digits, slash_free_four_digits.
  reflexivity.
Qed.

(** ** Directories *)

Lemma mkdir_ok p f f' :
  os.mkdir p f = Ok f' ->
  f' = <[p := Dir]> f /\ f !! p = None /\ p <> [].
Proof.
  unfold os.mkdir. destruct p as [|c p].
  - discriminate.
  - cbn [os.lookup_node]. destruct (f !! (c :: p)); [discriminate|].
    destruct (os.lookup_node f (removelast (c :: p))) as [[|]|]; try discriminate.
    intros [= <-]. repeat split. discriminate.
Qed.

Lemma mkdir_files p f f' :
  os.mkdir p f = Ok f' ->
  forall q c, f' !! q = Some (File c) <-> f !! q = Some (File c).
Proof.
  intros Hmk q c. apply mkdir_ok in Hmk as (-> & Hfree & _).
  destruct (decide (p = q)) as [<-|Hne].
  - rewrite lookup_insert_eq, Hfree. split; discriminate.
  - rewrite lookup_insert_ne by exact Hne. reflexivity.
Qed.

(** What [os.makedirs] leaves when it succeeds: the directory, and the
    files that were there. *)
Lemma makedirs_up_ok :
  forall rp f f',
    os.makedirs_up rp f = Ok f' ->
    f' !! rev rp = Some Dir /\
    forall q c, f' !! q = Some (File c) <-> f !! q = Some (File c).
Proof.
  induction rp as [|x rhead IH]; intros f f' Hmk; [discriminate|].
  cbn [os.makedirs_up] in Hmk.
  destruct (os.lookup_node f (rev rhead)) as [nd|].
  - pose proof (mkdir_files _ _ _ Hmk) as Hfiles.
    apply mkdir_ok in Hmk as (-> & _ & _).
    split; [apply lookup_insert_eq | exact Hfiles].
  - destruct (os.makedirs_up rhead f) as [f1| |] eqn:Hup; try discriminate.
    destruct (IH f f1 Hup) as (_ & Hfiles1).
    pose proof (mkdir_files _ _ _ Hmk) as Hfiles.
    apply mkdir_ok in Hmk as (-> & _ & _).
    split; [apply lookup_insert_eq|].
    intros q c. rewrite Hfiles. apply Hfiles1.
Qed.

(** A missing entry of an existing directory is made in one step. *)
Lemma makedirs_up_leaf f parent c :
  os.lookup_node f parent = Some Dir ->
  f !! (parent ++ [c]) = None ->
  os.makedirs_up (rev (parent ++ [c])) f = Ok (<[parent ++ [c] := Dir]> f).
Proof.
  intros Hparent Hfree. rewrite rev_app_distr. cbn [rev app os.makedirs_up].
  rewrite rev_involutive, Hparent. unfold os.mkdir.
  assert (Hlk : os.lookup_node f (parent ++ [c]) = None).
  { destruct parent; exact Hfree. }
  rewrite Hlk, removelast_last, Hparent. reflexivity.
Qed.

(** [create_directory_if_not_exist], unfolded: two readings of the clock,
    one test, and at most one line and one [makedirs]. *)
Lemma create_directory_spec user w :
  let name := user +:+ "-Date_" +:+ time.format "%Y-%m-%d" (clock w (ticks w))
                   +:+ "-Time_" +:+ time.format "%H-%M-%S" (clock w (S (ticks w))) in
  let abs_path := os.render (os.resolve (cwd w) name) in
  let w2 := set_ticks (S (S (ticks w))) w in
  let w3 := set_stdout (stdout w ++ ["Creating directory " +:+ abs_path]) w2 in
  create_directory_if_not_exist user w
  = match os.lookup_node (fs w) (os.resolve (cwd w) abs_path) with
    | Some _ => (w2, Ok abs_path)
    | None =>
        match os.makedirs_up (rev (os.resolve (cwd w) abs_path)) (fs w) with
        | Ok f => (set_fs f w3, Ok abs_path)
        | Raise e => (w3, Raise e)
        | OutOfFuel => (w3, OutOfFuel)
        end
    end.
Proof.
  cbn zeta. unfold create_directory_if_not_exist, bind, time.strftime,
    os.path_abspath, os.path_exists, logging.info, logging.emit, os.makedirs, ret.
  cbn [ticks clock cwd fs set_ticks set_stdout stdout].
  destruct (os.lookup_node (fs w) _); cbn [negb]; [reflexivity|].
  destruct (os.makedirs_up _ _); reflexivity.
Qed.

Lemma lookup_node_snoc (f : gmap (list string) node) parent c :
  os.lookup_node f (parent ++ [c]) = f !! (parent ++ [c]).
Proof. destruct parent; reflexivity. Qed.

(** What a successful [create_directory_if_not_exist] leaves. *)
Lemma create_directory_ok user w w' d :
  create_directory_if_not_exist user w = (w', Ok d) ->
  let target := os.resolve (cwd w) d in
  calls w' = calls w /\
  os.lookup_node (fs w') target <> None /\
  (os.lookup_node (fs w) target = None -> fs w' !! target = Some Dir) /\
  (forall q c, fs w' !! q = Some (File c) <-> fs w !! q = Some (File c)).
Proof.
  rewrite create_directory_spec. cbn zeta.
  set (abs_path := os.render _).
  destruct (os.lookup_node (fs w) (os.resolve (cwd w) abs_path)) as [nd|] eqn:Hnode.
  - intros [= <- <-]. cbn [calls fs set_ticks]. rewrite Hnode.
    repeat split; try congruence; auto.
  - destruct (os.makedirs_up _ _) as [f| |] eqn:Hmk; try discriminate.
    intros [= <- <-]. cbn [calls fs set_ticks set_stdout set_fs].
    destruct (makedirs_up_ok _ _ _ Hmk) as (Hdir & Hfiles).
    rewrite rev_involutive in Hdir.
    repeat split; try apply Hfiles; auto.
    destruct (os.resolve (cwd w) abs_path); cbn; congruence.
Qed.

(** C6.  With the date read on a calendar clock and the time read next,
    the path that [create_directory_if_not_exist] returns is the absolute
    path of [{username}-Date_{YYYY-MM-DD}-Time_{HH-MM-SS}] from the
    working directory, for every user name.  For a user name without a
    separator, in a working directory that exists, the call succeeds and
    the directory is the entry of exactly that name in the working
    directory.  For bob on 2024-03-05 at 14:07:22 the name reads
    bob-Date_2024-03-05-Time_14-07-22. *)
Theorem C6_output_directory_name (user : string) (w : World) :
  let date := clock w (ticks w) in
  let clock_time := clock w (S (ticks w)) in
  let name := directory_name user date clock_time in
  calendar_time date ->
  calendar_time clock_time ->
  (forall w' p,
     create_directory_if_not_exist user w = (w', Ok p) ->
     p = os.render (os.resolve (cwd w) name)) /\
  (slash_free user = true ->
   Forall plain_component (cwd w) ->
   os.lookup_node (fs w) (cwd w) = Some Dir ->
   exists w',
     create_directory_if_not_exist user w
     = (w', Ok (os.render (cwd w ++ [name]))) /\
     fs w' !! (cwd w ++ [name]) <> None) /\
  directory_name "bob" march_5th march_5th = "bob-Date_2024-03-05-Time_14-07-22".
Proof.
  cbn zeta. intros Hdate Htime. split; [|split].
  - intros w' p. rewrite create_directory_spec. cbn zeta.
    rewrite (formatted_name user _ _ Hdate Htime).
    destruct (os.lookup_node _ _); [congruence|].
    destruct (os.makedirs_up _ _); congruence.
  - intros Huser Hcwd Hparent.
    set (name := directory_name user (clock w (ticks w)) (clock w (S (ticks w)))).
    assert (Hname : plain_component name) by (apply directory_name_plain, Huser).
    assert (Hclean : Forall plain_component (cwd w ++ [name])).
    { apply Forall_app. split; [exact Hcwd|]. constructor; [exact Hname|constructor]. }
    rewrite create_directory_spec. cbn zeta.
    rewrite (formatted_name user _ _ Hdate Htime). fold name.
    rewrite (resolve_plain (cwd w) name Hname).
    rewrite (resolve_render (cwd w) _ Hclean), lookup_node_snoc.
    destruct (fs w !! (cwd w ++ [name])) as [nd|] eqn:Hnode.
    + eexists. split; [reflexivity|]. cbn [fs set_ticks]. congruence.
    + rewrite (makedirs_up_leaf _ _ _ Hparent Hnode).
      eexists. split; [reflexivity|]. cbn [fs set_fs].
      rewrite lookup_insert_eq. discriminate.
  - reflexivity.
Qed.

(** C10.  [create_directory_if_not_exist] reads the clock twice: the date
    of the name comes from the first reading and the time from the second.
    When midnight falls between the two, the name joins the date of one
    day and a time of the next. *)
Theorem C10_date_and_time_from_two_readings :
  (forall user w,
     ticks (fst (create_directory_if_not_exist user w)) = S (S (ticks w))) /\
  (forall user w,
     match snd (create_directory_if_not_exist user w) with
     | Ok p =>
         p = os.render (os.resolve (cwd w)
               (user +:+ "-Date_" +:+ time.format "%Y-%m-%d" (clock w (ticks w))
                     +:+ "-Time_"
                     +:+ time.format "%H-%M-%S" (clock w (S (ticks w)))))
     | _ => True
     end) /\
  exists w,
    tm_mday (clock w (ticks w)) = 5%N /\
    tm_hour (clock w (ticks w)) = 23%N /\
    tm_mday (clock w (S (ticks w))) = 6%N /\
    tm_hour (clock w (S (ticks w))) = 0%N /\
    snd (create_directory_if_not_exist "bob" w)
    = Ok "/home/bob/bob-Date_2024-03-05-Time_00-00-00".
Proof.
  split; [|split].
  - intros user w. rewrite create_directory_spec. cbn zeta.
    destruct (os.lookup_node _ _); [reflexivity|].
    destruct (os.makedirs_up _ _); reflexivity.
  - intros user w. rewrite create_directory_spec. cbn zeta.
    destruct (os.lookup_node _ _); [reflexivity|].
    destruct (os.makedirs_up _ _); cbn [snd]; auto.
  - exists around_midnight. repeat (split; [reflexivity|]).
    vm_compute. reflexivity.
Qed.

(** ** The run without repositories *)

(** The Lister touches neither the file system nor standard output, and
    sends requests for pages only. *)
Lemma request_pages_frame user :
  forall fuel acc p w,
    let w' := fst (request_pages fuel user acc p w) in
    fs w' = fs w /\ stdout w' = stdout w /\
    exists cs, calls w' = calls w ++ cs /\
               Forall (fun c => op c = FetchJson) cs.
Proof.
  assert (Hone : forall w url,
    let w1 := set_calls (calls w ++ [Call (http_client w) FetchJson url]) w in
    fs w1 = fs w /\ stdout w1 = stdout w /\
    exists cs, calls w1 = calls w ++ cs /\ Forall (fun c => op c = FetchJson) cs).
  { intros w url. repeat split. eexists. split; [reflexivity|].
    repeat constructor. }
  induction fuel as [|fuel IH]; intros acc p w; cbn zeta.
  - repeat split. exists []. rewrite app_nil_r. split; [reflexivity|constructor].
  - rewrite request_pages_step. cbn zeta.
    destruct (fetched _ _) as [page| |]; try apply Hone.
    destruct (truthy page); [|apply Hone].
    destruct (py_list_iadd acc page) as [acc'| |]; try apply Hone.
    destruct (IH acc' (S p)
                (set_calls (calls w ++ [Call (http_client w) FetchJson (page_url user p)]) w))
      as (Hfs & Hout & cs & Hcs & Hall).
    split; [exact Hfs|]. split; [exact Hout|].
    eexists (_ :: cs). split.
    + rewrite Hcs. cbn [calls set_calls]. rewrite <- app_assoc. reflexivity.
    + constructor; [reflexivity|exact Hall].
Qed.

Section Empty.

Context `{Interpreter}.

(** C7.  When the directory could be set up and the listing then yields
    no record, [main] returns normally: the output directory is there
    (as a directory if it was not there before), the files are those
    that were there before the run, no download was requested, and the
    last line logged is "Completed". *)
Theorem C7_run_without_repositories
    (fuel : nat) (user : string) (w w1 w2 : World) (d : string) :
  before_listing user w = (w1, Ok d) ->
  request_for_public_repositories fuel user w1 = (w2, Ok []) ->
  exists w',
    main fuel user w = (w', Ok tt) /\
    os.lookup_node (fs w') (os.resolve (cwd w) d) <> None /\
    (os.lookup_node (fs w) (os.resolve (cwd w) d) = None ->
     fs w' !! os.resolve (cwd w) d = Some Dir) /\
    (forall q c, fs w' !! q = Some (File c) <-> fs w !! q = Some (File c)) /\
    (exists cs, calls w' = calls w ++ cs /\
                Forall (fun c => op c = FetchJson) cs) /\
    exists lines, stdout w' = lines ++ ["Completed"].
Proof.
  intros Hbl Hlist.
  assert (Hbd : before_downloads fuel user w
                = (set_stdout (stdout w2 ++ ["Got public repositories: "]) w2,
                   Ok ([], d))).
  { unfold before_downloads.
    rewrite (bind_ok _ _ _ _ _ Hbl), (bind_ok _ _ _ _ _ Hlist). reflexivity. }
  pose proof (main_after_downloads fuel user w _ [] d _ Hbd eq_refl) as Hmain.
  eexists. split; [exact Hmain|]. cbn [fs calls stdout set_stdout].
  (* the stages before the listing *)
  unfold before_listing, bind, logging.info, logging.emit in Hbl.
  destruct (create_directory_if_not_exist user _) as [w0 [d0| |]] eqn:Hcreate;
    try discriminate.
  unfold ret in Hbl. injection Hbl as <- <-.
  apply create_directory_ok in Hcreate. cbn zeta in Hcreate.
  cbn [cwd fs calls set_stdout] in Hcreate.
  destruct Hcreate as (Hcalls & Hthere & Hdir & Hfiles).
  (* the listing *)
  unfold request_for_public_repositories in Hlist.
  pose proof (request_pages_frame user fuel [] 0%nat
                (set_stdout (stdout w0 ++
                   ["Saving zipball archives in following directory: " +:+ d0]) w0))
    as Hframe.
  cbn zeta in Hframe. rewrite Hlist in Hframe.
  cbn [fst fs calls stdout set_stdout] in Hframe.
  destruct Hframe as (Hfs & _ & cs & Hcs & Hall).
  rewrite Hfs. repeat split; try assumption; try apply Hfiles.
  - exists cs. rewrite Hcs, Hcalls. split; [reflexivity|exact Hall].
  - eexists. reflexivity.
Qed.

End Empty.

(** * Examples *)

(** The listing of bob: two pages, then the empty one. *)
Lemma C1_witness :
  request_for_public_repositories 5 "bob" (world_of UrllibHttpClient github)
  = (set_calls (page_calls UrllibHttpClient "bob" 0 3)
       (world_of UrllibHttpClient github),
     Ok (bob_pages 0 ++ bob_pages 1)).
Proof.
  rewrite (C1_lister_returns_pages_before_first_empty
             "bob" bob_pages 2 5 (world_of UrllibHttpClient github)).
  - reflexivity.
  - intros i Hi. destruct i as [|[|i]]; [discriminate|discriminate|lia].
  - reflexivity.
  - intros i Hi. destruct i as [|[|[|i]]]; [vm_compute; reflexivity..|lia].
  - lia.
Defined.

(** A rate-limited endpoint keeps the Lister asking for ever. *)
Lemma C5_counterexample :
  ~ exists fuel,
      snd (request_for_public_repositories fuel "octocat" rate_limited)
      <> OutOfFuel.
Proof.
  intros (fuel & Hstop). apply Hstop.
  apply (request_pages_never_stops "octocat"
           [("message", VStr "API rate limit exceeded");
            ("documentation_url", VStr "https://docs.github.com/rest")]).
  - discriminate.
  - intros n url. reflexivity.
Qed.

Lemma C5_witness :
  (exists w' r,
     request_for_public_repositories 5 "bob" (world_of RequestsHttpClient github)
     = (w', r) /\ r <> OutOfFuel /\ (length (calls w') <= 3)%nat) /\
  request_pages 1 "octocat" [] 0 rate_limited
  = request_pages 0 "octocat" [VStr "message"; VStr "documentation_url"] 1
      (set_calls [Call RequestsHttpClient FetchJson (page_url "octocat" 0)]
         rate_limited).
Proof.
  destruct C5_loop_stops_at_falsy_page_only as [Hstops Hgoes]. split.
  - apply (Hstops "bob" 2%nat 5%nat (world_of RequestsHttpClient github) (VList [])).
    + vm_compute. reflexivity.
    + reflexivity.
    + lia.
  - apply (Hgoes "octocat" 0%nat [] 0%nat rate_limited
             [("message", VStr "API rate limit exceeded");
              ("documentation_url", VStr "https://docs.github.com/rest")]).
    + discriminate.
    + reflexivity.
Defined.

(** A zipball that is not there: 404. *)
Lemma C3_counterexample :
  let r := UrllibHttpClient.download_file
             "https://github.com/bob/bar/zipball/master/" "/home/bob" (VStr "bar")
             (world_of UrllibHttpClient github) in
  snd r = Raise (HTTPError 404) /\
  fs (fst r) !! ["home"; "bob"; "bar.zip"] = None.
Proof. vm_compute. split; reflexivity. Qed.

Lemma C3_witness :
  RequestsHttpClient.download_file
    "https://github.com/bob/bar/zipball/master/" "/home/bob" (VStr "bar")
    (world_of RequestsHttpClient github)
  = (set_calls [Call RequestsHttpClient DownloadFile
                  "https://github.com/bob/bar/zipball/master/"]
       (world_of RequestsHttpClient github), Ok tt) /\
  UrllibHttpClient.download_file
    "https://github.com/bob/bar/zipball/master/" "/home/bob" (VStr "bar")
    (world_of RequestsHttpClient github)
  = (set_calls [Call UrllibHttpClient DownloadFile
                  "https://github.com/bob/bar/zipball/master/"]
       (world_of RequestsHttpClient github), Raise (HTTPError 404)).
Proof.
  destruct (C3_download_answered_with_error_status
              "https://github.com/bob/bar/zipball/master/" "/home/bob" "bar"
              (world_of RequestsHttpClient github)
              {| status_code := 404; raw := []; json := None |})
    as [Hrequests Hurllib].
  - vm_compute. reflexivity.
  - split.
    + apply Hrequests. cbn [status_code]. lia.
    + apply Hurllib. cbn [status_code]. lia.
Defined.

(** The record of the specification, saved by the requests client. *)
Lemma C4_witness :
  let w := world_of RequestsHttpClient github in
  let w' := fst (@save_repositories an_interpreter
                   [repository "foo" "https://github.com/alice/foo"] "/home/bob" w) in
  calls w' = [Call RequestsHttpClient DownloadFile
                "https://github.com/alice/foo/zipball/master/"] /\
  fs w' = <[ ["home"; "bob"; "foo.zip"] := File zip_bytes ]> home.
Proof.
  cbn zeta.
  destruct (@C4_one_request_and_one_file an_interpreter
              [("id", VInt 1); ("name", VStr "foo");
               ("html_url", VStr "https://github.com/alice/foo");
               ("private", VBool false)]
              "/home/bob" (world_of RequestsHttpClient github))
    as [Hcalls Hfile].
  - reflexivity.
  - reflexivity.
  - split; [exact Hcalls|].
    destruct (Hfile {| status_code := 200; raw := zip_bytes; json := None |})
      as [_ Hfs].
    + vm_compute. reflexivity.
    + reflexivity.
    + vm_compute. discriminate.
    + vm_compute. reflexivity.
    + exact Hfs.
Defined.

(** bob, on March 5th 2024 at 14:07:22, in /home/bob. *)
Lemma C6_witness :
  snd (create_directory_if_not_exist "bob" (world_of RequestsHttpClient github))
  = Ok "/home/bob/bob-Date_2024-03-05-Time_14-07-22".
Proof.
  destruct (C6_output_directory_name "bob" (world_of RequestsHttpClient github))
    as (_ & Hcreated & _).
  - unfold calendar_time. cbn. lia.
  - unfold calendar_time. cbn. lia.
  - destruct Hcreated as (w' & Hrun & _).
    + reflexivity.
    + repeat constructor; discriminate.
    + vm_compute. reflexivity.
    + rewrite Hrun. vm_compute. reflexivity.
Defined.

(** A user without repositories. *)
Lemma C7_witness :
  let r := @main an_interpreter 5 "nobody" (world_of UrllibHttpClient github) in
  snd r = Ok tt /\
  fs (fst r) !! ["home"; "bob"; "nobody-Date_2024-03-05-Time_14-07-22"] = Some Dir /\
  exists lines, stdout (fst r) = lines ++ ["Completed"].
Proof.
  cbn zeta.
  destruct (@C7_run_without_repositories an_interpreter 5 "nobody"
              (world_of UrllibHttpClient github)
              (fst (@before_listing an_interpreter "nobody"
                      (world_of UrllibHttpClient github)))
              (fst (request_for_public_repositories 5 "nobody"
                      (fst (@before_listing an_interpreter "nobody"
                              (world_of UrllibHttpClient github)))))
              "/home/bob/nobody-Date_2024-03-05-Time_14-07-22")
    as (w' & Hmain & _ & Hdir & _ & _ & Hlines).
  - vm_compute. reflexivity.
  - vm_compute. reflexivity.
  - rewrite Hmain. cbn [fst snd]. split; [reflexivity|]. split; [|exact Hlines].
    apply Hdir. vm_compute. reflexivity.
Defined.

(** A record without 'html_url', after one that is complete. *)
Lemma C9_witness :
  snd (@save_repositories an_interpreter
         [repository "foo" "https://github.com/alice/foo";
          VDict [("id", VInt 2); ("name", VStr "bar")];
          repository "baz" "https://github.com/bob/baz"]
         "/home/bob" (world_of RequestsHttpClient github))
  = Raise (KeyError "html_url").
Proof.
  destruct (@C9_missing_key_raises_KeyError an_interpreter
              [repository "foo" "https://github.com/alice/foo"]
              [repository "baz" "https://github.com/bob/baz"]
              [("id", VInt 2); ("name", VStr "bar")]
              "/home/bob" (world_of RequestsHttpClient github)
              (fst (@save_repositories an_interpreter
                      [repository "foo" "https://github.com/alice/foo"]
                      "/home/bob" (world_of RequestsHttpClient github))))
    as (key & Hkey & Hnone & Hsave & _).
  - right. reflexivity.
  - vm_compute. reflexivity.
  - cbn [app] in Hsave. rewrite Hsave. cbn [snd].
    destruct Hkey as [-> | ->]; [discriminate Hnone | reflexivity].
Defined.

(** bob's three repositories: with the urllib client the second download,
    answered with 404, ends the run; with the requests client, so does a
    network that has gone away.  Neither run logs "Completed". *)
Lemma C2_counterexample :
  let r := @main an_interpreter 5 "bob" (world_of UrllibHttpClient github) in
  let r' := @main an_interpreter 5 "bob"
              (world_of RequestsHttpClient github_then_offline) in
  (snd r = Raise (HTTPError 404) /\
   Forall (fun l => l <> "Completed") (stdout (fst r))) /\
  (snd r' = Raise ConnectionError /\
   Forall (fun l => l <> "Completed") (stdout (fst r'))).
Proof.
  cbn zeta. split; (split; [vm_compute; reflexivity|]).
  - assert (Hout : forallb (fun l => negb (String.eqb l "Completed"))
                     (stdout (fst (@main an_interpreter 5 "bob"
                                     (world_of UrllibHttpClient github)))) = true)
      by (vm_compute; reflexivity).
    rewrite forallb_forall in Hout. apply List.Forall_forall. intros l Hl.
    specialize (Hout l Hl). apply negb_true_iff, String.eqb_neq in Hout. exact Hout.
  - assert (Hout : forallb (fun l => negb (String.eqb l "Completed"))
                     (stdout (fst (@main an_interpreter 5 "bob"
                                     (world_of RequestsHttpClient github_then_offline)))) = true)
      by (vm_compute; reflexivity).
    rewrite forallb_forall in Hout. apply List.Forall_forall. intros l Hl.
    specialize (Hout l Hl). apply negb_true_iff, String.eqb_neq in Hout. exact Hout.
Qed.

(** The same account with the requests client and the network up: the two
    downloads answered with 404 go unnoticed.  With the urllib client the
    download of bar, the second record, ends the run.  With the requests
    client and no zipball to be had, the run completes without a file. *)
Lemma C2_witness :
  (let r := @main an_interpreter 5 "bob" (world_of RequestsHttpClient github) in
   snd r = Ok tt /\
   fs (fst r) !! ["home"; "bob"; "bob-Date_2024-03-05-Time_14-07-22"; "bar.zip"] = None /\
   exists lines, stdout (fst r) = lines ++ ["Completed"]) /\
  snd (@main an_interpreter 5 "bob" (world_of UrllibHttpClient github))
  = Raise (HTTPError 404) /\
  (let r := @main an_interpreter 5 "bob"
              (world_of RequestsHttpClient github_without_zipballs) in
   snd r = Ok tt /\
   fs (fst r) !! ["home"; "bob"; "bob-Date_2024-03-05-Time_14-07-22"; "foo.zip"] = None).
Proof.
  cbn zeta. split; [|split].
  - pose (w3 := fst (@before_downloads an_interpreter 5 "bob"
                       (world_of RequestsHttpClient github))).
    pose (w4 := fst (@save_repositories an_interpreter
                       (bob_pages 0 ++ bob_pages 1)
                       "/home/bob/bob-Date_2024-03-05-Time_14-07-22" w3)).
    destruct (@C2_download_errors_are_not_swallowed an_interpreter 5 "bob"
                (world_of RequestsHttpClient github) w3
                (bob_pages 0 ++ bob_pages 1)
                "/home/bob/bob-Date_2024-03-05-Time_14-07-22")
      as (_ & Hcompleted & _).
    + vm_compute. reflexivity.
    + rewrite (Hcompleted w4) by (vm_compute; reflexivity).
      cbn [fst snd stdout fs set_stdout]. split; [reflexivity|].
      split; [vm_compute; reflexivity|]. eexists. reflexivity.
  - pose (w3 := fst (@before_downloads an_interpreter 5 "bob"
                       (world_of UrllibHttpClient github))).
    destruct (@C2_download_errors_are_not_swallowed an_interpreter 5 "bob"
                (world_of UrllibHttpClient github) w3
                (bob_pages 0 ++ bob_pages 1)
                "/home/bob/bob-Date_2024-03-05-Time_14-07-22")
      as (_ & _ & _ & _ & Hhttp).
    + vm_compute. reflexivity.
    + destruct (Hhttp [repository "foo" "https://github.com/bob/foo"]
                  [("id", VInt 1); ("name", VStr "bar");
                   ("html_url", VStr "https://github.com/bob/bar");
                   ("private", VBool false)]
                  "bar" (VStr "https://github.com/bob/bar") (bob_pages 1)
                  (fst (@save_repositories an_interpreter
                          [repository "foo" "https://github.com/bob/foo"]
                          "/home/bob/bob-Date_2024-03-05-Time_14-07-22" w3))
                  {| status_code := 404; raw := []; json := None |})
        as (w4 & lines & Hmain & _).
      * reflexivity.
      * vm_compute. reflexivity.
      * reflexivity.
      * reflexivity.
      * reflexivity.
      * vm_compute. reflexivity.
      * cbn [status_code]. lia.
      * rewrite Hmain. reflexivity.
  - pose (w3 := fst (@before_downloads an_interpreter 5 "bob"
                       (world_of RequestsHttpClient github_without_zipballs))).
    destruct (@C2_download_errors_are_not_swallowed an_interpreter 5 "bob"
                (world_of RequestsHttpClient github_without_zipballs) w3
                (bob_pages 0 ++ bob_pages 1)
                "/home/bob/bob-Date_2024-03-05-Time_14-07-22")
      as (_ & _ & Hrefused & _).
    + vm_compute. reflexivity.
    + destruct Hrefused as (w4 & Hmain & Hfs).
      * reflexivity.
      * intros i r Hr.
        destruct i as [|[|[|i]]]; try discriminate Hr;
          injection Hr as <-;
          eexists _, _, _, {| status_code := 404; raw := []; json := None |};
          (split; [reflexivity|]); (split; [reflexivity|]);
          (split; [reflexivity|]); (split; [vm_compute; reflexivity|]);
          cbn [status_code]; lia.
      * rewrite Hmain. cbn [fst snd fs set_stdout]. split; [reflexivity|].
        rewrite Hfs. vm_compute. reflexivity.
Defined.

(** * More about the script *)

(** ** The requests of the Lister *)

Lemma page_url_inj user p q : page_url user p = page_url user q -> p = q.
Proof.
  unfold page_url. intros Heq.
  do 3 apply (inj (String.append _)) in Heq.
  exact (inj pretty _ _ Heq).
Qed.

Lemma page_calls_NoDup c user : forall n p, NoDup (page_calls c user p n).
Proof.
  induction n as [|n IH]; intros p.
  - constructor.
  - rewrite page_calls_cons. constructor; [|apply IH].
    unfold page_calls. rewrite list_elem_of_In, in_map_iff.
    intros (q & Heq & Hin).
    apply in_seq in Hin. apply (f_equal target) in Heq. cbn [target] in Heq.
    apply page_url_inj in Heq. lia.
Qed.

Lemma request_pages_calls user :
  forall fuel acc p w,
  exists n, (n <= fuel)%nat /\
    calls (fst (request_pages fuel user acc p w))
    = calls w ++ page_calls (http_client w) user p n.
Proof.
  induction fuel as [|fuel IH]; intros acc p w.
  - exists 0%nat. split; [lia|]. cbn. rewrite app_nil_r. reflexivity.
  - rewrite request_pages_step. cbn zeta.
    assert (Hone : forall r : outcome (list value),
      exists n, (n <= S fuel)%nat /\
        calls (fst (set_calls (calls w ++ [Call (http_client w) FetchJson (page_url user p)]) w, r))
        = calls w ++ page_calls (http_client w) user p n).
    { intros r. exists 1%nat. split; [lia|]. reflexivity. }
    destruct (fetched _ _) as [page| |]; try apply Hone.
    destruct (truthy page); [|apply Hone].
    destruct (py_list_iadd acc page) as [acc'| |]; try apply Hone.
    destruct (IH acc' (S p)
                (set_calls (calls w ++ [Call (http_client w) FetchJson (page_url user p)]) w))
      as (n & Hn & Hcalls).
    exists (S n). split; [lia|]. rewrite Hcalls. cbn [calls set_calls http_client].
    rewrite <- app_assoc, page_calls_cons. reflexivity.
Qed.

(** X1.  Whatever the network answers and however long the loop runs, the
    requests that the Lister sends are the requests for the pages 0, 1,
    ..., n-1 of the user, in that order and each one once; the Lister
    does not touch the file system. *)
Theorem lister_requests_consecutive_pages (fuel : nat) (user : string) (w : World) :
  let w' := fst (request_for_public_repositories fuel user w) in
  exists n, (n <= fuel)%nat /\
    calls w' = calls w ++ page_calls (http_client w) user 0 n /\
    NoDup (page_calls (http_client w) user 0 n) /\
    fs w' = fs w.
Proof.
  cbn zeta. unfold request_for_public_repositories.
  destruct (request_pages_calls user fuel [] 0%nat w) as (n & Hn & Hcalls).
  destruct (request_pages_frame user fuel [] 0%nat w) as (Hfs & _).
  exists n. repeat split; try assumption. apply page_calls_NoDup.
Qed.

(** ** A listing that fails *)

Lemma request_pages_fails user (pages : nat -> list value) :
  forall k fuel acc p w e,
    (forall i, (i < k)%nat -> pages (p + i)%nat <> []) ->
    (forall i, (i < k)%nat ->
       fetched (http_client w)
         (net w (length (calls w) + i)%nat (page_url user (p + i)%nat))
       = Ok (VList (pages (p + i)%nat))) ->
    (fetched (http_client w)
       (net w (length (calls w) + k)%nat (page_url user (p + k)%nat)) = Raise e
     \/ exists doc,
          fetched (http_client w)
            (net w (length (calls w) + k)%nat (page_url user (p + k)%nat)) = Ok doc /\
          truthy doc = true /\ py_iter doc = Raise e) ->
    (k < fuel)%nat ->
    request_pages fuel user acc p w
    = (set_calls (calls w ++ page_calls (http_client w) user p (S k)) w, Raise e).
Proof.
  induction k as [|k IH]; intros fuel acc p w e Hne Hnet Hfail Hfuel;
    (destruct fuel as [|fuel]; [lia|]); rewrite request_pages_step; cbn zeta.
  - rewrite !Nat.add_0_r in Hfail.
    destruct Hfail as [-> | (doc & -> & -> & Hiter)]; [reflexivity|].
    unfold py_list_iadd. rewrite Hiter. reflexivity.
  - pose proof (Hnet 0%nat (Nat.lt_0_succ _)) as H0.
    rewrite !Nat.add_0_r in H0. rewrite H0.
    assert (Hp : pages p <> []).
    { specialize (Hne 0%nat (Nat.lt_0_succ _)). rewrite Nat.add_0_r in Hne.
      exact Hne. }
    assert (Ht : truthy (VList (pages p)) = true).
    { cbn. destruct (pages p); [congruence | reflexivity]. }
    rewrite Ht. cbn [py_list_iadd py_iter].
    rewrite (IH fuel _ (S p) _ e).
    + cbn [http_client set_calls calls].
      rewrite <- app_assoc. cbn [app]. rewrite <- page_calls_cons. reflexivity.
    + intros i Hi. replace (S p + i)%nat with (p + S i)%nat by lia.
      apply Hne. lia.
    + intros i Hi. cbn [http_client set_calls calls net].
      rewrite length_app. cbn [length].
      replace (length (calls w) + 1 + i)%nat with (length (calls w) + S i)%nat by lia.
      replace (S p + i)%nat with (p + S i)%nat by lia.
      apply Hnet. lia.
    + cbn [http_client set_calls calls net].
      rewrite length_app. cbn [length].
      replace (length (calls w) + 1 + k)%nat with (length (calls w) + S k)%nat by lia.
      replace (S p + k)%nat with (p + S k)%nat by lia.
      exact Hfail.
    + lia.
Qed.

(** X2.  The Lister neither retries nor keeps what it has: when the pages
    0 .. k-1 are non-empty lists and the request for the page [k] raises
    [e], or answers with a document that passes the test of the loop but
    cannot be iterated, the Lister raises [e] after the k + 1 requests
    for the pages 0 .. k, and the records of the pages read so far are
    lost. *)
Theorem lister_failure_is_final
    (user : string) (pages : nat -> list value) (k fuel : nat) (w : World)
    (e : exn) :
  (forall i, (i < k)%nat -> pages i <> []) ->
  (forall i, (i < k)%nat ->
     fetched (http_client w)
       (net w (length (calls w) + i)%nat (page_url user i))
     = Ok (VList (pages i))) ->
  (fetched (http_client w)
     (net w (length (calls w) + k)%nat (page_url user k)) = Raise e
   \/ exists doc,
        fetched (http_client w)
          (net w (length (calls w) + k)%nat (page_url user k)) = Ok doc /\
        truthy doc = true /\ py_iter doc = Raise e) ->
  (k < fuel)%nat ->
  request_for_public_repositories fuel user w
  = (set_calls (calls w ++ page_calls (http_client w) user 0 (S k)) w, Raise e).
Proof.
  intros Hne Hnet Hfail Hfuel. unfold request_for_public_repositories.
  apply (request_pages_fails user pages k fuel [] 0%nat w e); assumption.
Qed.

Section Listing.

Context `{Interpreter}.

(** X3.  An exception of the Lister ends [main] at once: the outcome of
    [main] is that exception, in the state the Lister left; the output
    directory that was set up stays behind with the file system as it was
    after the set-up, and no download was requested. *)
Theorem main_stops_when_listing_fails
    (fuel : nat) (user : string) (w w1 w2 : World) (d : string) (e : exn) :
  before_listing user w = (w1, Ok d) ->
  request_for_public_repositories fuel user w1 = (w2, Raise e) ->
  main fuel user w = (w2, Raise e) /\
  fs w2 = fs w1 /\
  exists cs, calls w2 = calls w1 ++ cs /\
             Forall (fun c => op c = FetchJson) cs.
Proof.
  intros Hbl Hlist. split.
  - rewrite main_stages. unfold before_downloads.
    unfold bind at 1 2. rewrite Hbl. unfold bind at 1. rewrite Hlist. reflexivity.
  - pose proof (request_pages_frame user fuel [] 0%nat w1) as Hframe.
    cbn zeta in Hframe. unfold request_for_public_repositories in Hlist.
    rewrite Hlist in Hframe. destruct Hframe as (Hfs & _ & Hcalls).
    split; assumption.
Qed.

(** What [print_received_repositories] logs: the header, then one line
    for each record up to the first one whose name cannot be read. *)
Lemma print_each_names :
  forall repositories names w,
    Forall2 (fun r n => py_getitem r "name" = Ok n) repositories names ->
    print_each repositories w
    = (set_stdout
         (stdout w ++ map (fun n => "Public repository: " +:+ py_str n) names) w,
       Ok tt).
Proof.
  induction repositories as [|r rest IH]; intros names w Hnames.
  - inversion Hnames; subst. cbn. rewrite app_nil_r. destruct w; reflexivity.
  - inversion Hnames as [|? n ? names' Hn Hrest]; subst.
    cbn [print_each]. unfold bind at 1, lift at 1. rewrite Hn.
    unfold bind, logging.info, logging.emit. rewrite (IH names' _ Hrest).
    cbn [stdout set_stdout map]. rewrite <- app_assoc. reflexivity.
Qed.

Lemma print_each_stops :
  forall pre names bad post w e,
    Forall2 (fun r n => py_getitem r "name" = Ok n) pre names ->
    py_getitem bad "name" = Raise e ->
    print_each (pre ++ bad :: post) w
    = (set_stdout
         (stdout w ++ map (fun n => "Public repository: " +:+ py_str n) names) w,
       Raise e).
Proof.
  induction pre as [|r rest IH]; intros names bad post w e Hnames Hbad.
  - inversion Hnames; subst. cbn [app print_each map].
    unfold bind, lift. rewrite Hbad, app_nil_r. destruct w; reflexivity.
  - inversion Hnames as [|? n ? names' Hn Hrest]; subst.
    cbn [app print_each]. unfold bind at 1, lift at 1. rewrite Hn.
    unfold bind, logging.info, logging.emit. rewrite (IH names' _ _ _ _ Hrest Hbad).
    cbn [stdout set_stdout map]. rewrite <- app_assoc. reflexivity.
Qed.

(** X4.  [print_received_repositories] logs the header line and then, in
    the order of the list, one line "Public repository: <name>" for each
    record; it changes nothing but standard output.  It stops at the first
    element whose 'name' cannot be read (a record without that key, or
    something that is not a record), with the exception of that lookup
    and after the lines of the records before it. *)
Theorem print_received_repositories_lines
    (pre : list value) (names : list value) (w : World) :
  Forall2 (fun r n => py_getitem r "name" = Ok n) pre names ->
  let logged :=
    stdout w ++ "Got public repositories: "
             :: map (fun n => "Public repository: " +:+ py_str n) names in
  print_received_repositories pre w = (set_stdout logged w, Ok tt) /\
  forall bad post e,
    py_getitem bad "name" = Raise e ->
    print_received_repositories (pre ++ bad :: post) w
    = (set_stdout logged w, Raise e).
Proof.
  intros Hnames. cbn zeta. unfold print_received_repositories.
  unfold bind, logging.info, logging.emit. split.
  - rewrite (print_each_names pre names _ Hnames).
    cbn [stdout set_stdout]. rewrite <- app_assoc. reflexivity.
  - intros bad post e Hbad.
    rewrite (print_each_stops pre names bad post _ e Hnames Hbad).
    cbn [stdout set_stdout]. rewrite <- app_assoc. reflexivity.
Qed.

(** X5.  An error document answered once is taken for a page: with a
    non-empty object on page 0 and a page 1 that ends the loop, the Lister
    returns the keys of the object, as strings, as if they were records.
    [print_received_repositories] raises [TypeError] on them, so that
    [main] ends with [TypeError], having sent the two requests for the
    pages and no download, and without a change to the file system. *)
Theorem error_document_listed_as_records
    (fuel : nat) (user : string) (w0 w : World) (directory : string)
    (d : list (string * value)) (doc : value) :
  before_listing user w0 = (w, Ok directory) ->
  d <> [] ->
  fetched (http_client w) (net w (length (calls w)) (page_url user 0))
  = Ok (VDict d) ->
  fetched (http_client w) (net w (S (length (calls w))) (page_url user 1))
  = Ok doc ->
  truthy doc = false ->
  (2 <= fuel)%nat ->
  let keys := map (fun kv => VStr (fst kv)) d in
  snd (request_for_public_repositories fuel user w) = Ok keys /\
  (forall x, snd (print_received_repositories keys x) = Raise TypeError) /\
  snd (main fuel user w0) = Raise TypeError /\
  calls (fst (main fuel user w0))
  = calls w ++ page_calls (http_client w) user 0 2 /\
  fs (fst (main fuel user w0)) = fs w.
Proof.
  intros Hbl Hd Hpage0 Hpage1 Hfalse Hfuel. cbn zeta.
  assert (Hlist : request_for_public_repositories fuel user w
                  = (set_calls (calls w ++ page_calls (http_client w) user 0 2) w,
                     Ok (map (fun kv => VStr (fst kv)) d))).
  { unfold request_for_public_repositories.
    destruct fuel as [|[|fuel]]; try lia.
    rewrite (request_pages_goes_on_after_object _ _ _ _ _ d Hd Hpage0).
    rewrite request_pages_step. cbn zeta.
    cbn [http_client net calls set_calls]. rewrite length_app. cbn [length].
    rewrite Nat.add_1_r, Hpage1, Hfalse.
    cbn [app]. rewrite <- app_assoc. reflexivity. }
  assert (Hprint : forall x,
            print_received_repositories (map (fun kv => VStr (fst kv)) d) x
            = (set_stdout (stdout x ++ ["Got public repositories: "]) x,
               Raise TypeError)).
  { intros x. destruct d as [|[k v] d']; [congruence|]. cbn [map fst].
    unfold print_received_repositories.
    unfold bind at 1. unfold logging.info at 1, logging.emit at 1.
    rewrite (print_each_stops [] [] (VStr k) (map (fun kv => VStr (fst kv)) d')
               _ TypeError ltac:(constructor) eq_refl).
    cbn [map stdout set_stdout]. rewrite app_nil_r. reflexivity. }
  assert (Hmain : main fuel user w0
                  = (set_stdout (stdout w ++ ["Got public repositories: "])
                       (set_calls (calls w ++ page_calls (http_client w) user 0 2) w),
                     Raise TypeError)).
  { rewrite main_stages. unfold before_downloads.
    unfold bind at 1 2. rewrite Hbl. unfold bind at 1. rewrite Hlist.
    unfold bind at 1. rewrite Hprint. reflexivity. }
  rewrite Hlist, Hmain. repeat split. intros x. rewrite Hprint. reflexivity.
Qed.

End Listing.

(** ** The Exporter when nothing fails *)

(** A download that returns normally has sent its one request. *)
Lemma download_file_returns url directory name w w1 :
  http_client_download_file url directory name w = (w1, Ok tt) ->
  calls w1 = calls w ++ [Call (http_client w) DownloadFile url] /\
  stdout w1 = stdout w /\ http_client w1 = http_client w.
Proof.
  unfold http_client_download_file. destruct (http_client w) eqn:Hc.
  - rewrite requests_download_file_spec. cbn zeta.
    destruct (net w (length (calls w)) url) as [|a]; [discriminate|].
    destruct (status_code a =? 200).
    + destruct (py_add_str name ".zip"); try discriminate.
      destruct (os.write_node _ _ _); try discriminate.
      intros [= <-]. cbn. auto.
    + intros [= <-]. cbn. auto.
  - destruct name as [| | | |n| |];
      try (unfold UrllibHttpClient.download_file, bind, lift; cbn; discriminate).
    rewrite urllib_download_file_spec. cbn zeta.
    destruct (urllib.received _); try discriminate.
    destruct (os.write_node _ _ _); try discriminate.
    intros [= <-]. cbn. auto.
Qed.

Section Success.

Context `{Interpreter}.

(** The shape of a run of the Exporter that returns normally. *)
Lemma save_repositories_returns
    (directory : string) (repositories : list value) (w w' : World) :
  save_repositories repositories directory w = (w', Ok tt) ->
  exists fields : list (value * value),
    Forall2 (fun r nu => py_getitem r "name" = Ok (fst nu) /\
                         py_getitem r "html_url" = Ok (snd nu))
      repositories fields /\
    calls w'
    = calls w ++ map (fun nu => Call (http_client w) DownloadFile
                                  (zipball_url (snd nu))) fields /\
    stdout w'
    = stdout w ++ map (fun nu => "Saving repository " +:+ py_str (fst nu)
                                   +:+ " to " +:+ directory) fields.
Proof.
  revert w. induction repositories as [|r rest IH]; intros w.
  - intros [= <-]. exists []. rewrite !app_nil_r. repeat split. constructor.
  - cbn [save_repositories]. unfold bind at 1, lift at 1.
    destruct (py_getitem r "name") as [n| |] eqn:Hn; try discriminate.
    unfold bind at 1, lift at 1.
    destruct (py_getitem r "html_url") as [u| |] eqn:Hu; try discriminate.
    unfold bind at 1, logging.info, logging.emit. unfold bind at 1.
    destruct (http_client_download_file _ _ _ _) as [w1 [[]| |]] eqn:Hdl;
      try discriminate.
    intros Hrest.
    apply download_file_returns in Hdl as (Hcalls & Hout & Hc).
    cbn [calls stdout http_client set_stdout] in Hcalls, Hout, Hc.
    destruct (IH w1 Hrest) as (fields & Hfields & Hcalls' & Hout').
    exists ((n, u) :: fields). split; [|split].
    + constructor; [split; assumption | exact Hfields].
    + rewrite Hcalls', Hcalls, Hc. cbn [map fst snd].
      rewrite <- app_assoc. reflexivity.
    + rewrite Hout', Hout. cbn [map fst snd].
      rewrite <- app_assoc. reflexivity.
Qed.

(** X6.  When the Exporter returns normally, every element of the list
    was a record with both fields, and the Exporter has sent exactly one
    request for each, in the order of the list: a download from
    [{html_url}/zipball/master/]. *)
Theorem exporter_one_download_per_record
    (directory : string) (repositories : list value) (w w' : World) :
  save_repositories repositories directory w = (w', Ok tt) ->
  exists fields : list (value * value),
    Forall2 (fun r nu => py_getitem r "name" = Ok (fst nu) /\
                         py_getitem r "html_url" = Ok (snd nu))
      repositories fields /\
    calls w'
    = calls w ++ map (fun nu => Call (http_client w) DownloadFile
                                  (zipball_url (snd nu))) fields.
Proof.
  intros Hsave.
  destruct (save_repositories_returns directory repositories w w' Hsave)
    as (fields & Hfields & Hcalls & _).
  exists fields. split; assumption.
Qed.

End Success.

(** ** fetch-JSON, client by client *)

(** X7.  The two clients disagree on a page answered with a status
    outside 2xx whose body is a JSON document: the requests client returns
    the document, the status being ignored, while the urllib client raises
    [HTTPError]; each sends one request.  When the body is not JSON, the
    requests client raises [JSONDecodeError]. *)
Theorem request_for_json_on_error_status
    (url : string) (w : World) (a : Response) :
  net w (length (calls w)) url = Answer a ->
  ~ (200 <= status_code a < 300) ->
  RequestsHttpClient.request_for_json url w
  = (set_calls (calls w ++ [Call RequestsHttpClient FetchJson url]) w,
     match json a with Some doc => Ok doc | None => Raise JSONDecodeError end) /\
  UrllibHttpClient.request_for_json url w
  = (set_calls (calls w ++ [Call UrllibHttpClient FetchJson url]) w,
     Raise (HTTPError (status_code a))).
Proof.
  intros Hnet Hs. split.
  - unfold RequestsHttpClient.request_for_json, requests.get, bind, send, lift.
    rewrite Hnet. cbn. unfold decode. destruct (json a); reflexivity.
  - unfold UrllibHttpClient.request_for_json, urllib.urlopen, bind, send, lift.
    rewrite Hnet. cbn.
    destruct (Z.leb_spec 200 (status_code a)), (Z.ltb_spec (status_code a) 300);
      cbn; try reflexivity.
    exfalso. apply Hs. lia.
Qed.

(** ** Where the archives go *)

Lemma Forall_removelast {A} (P : A -> Prop) (l : list A) :
  Forall P l -> Forall P (removelast l).
Proof.
  induction 1 as [|x l Hx Hl IH]; [constructor|].
  cbn [removelast]. destruct l; [constructor|]. constructor; assumption.
Qed.

Lemma enter_clean comp stack :
  slash_free comp = true ->
  Forall plain_component stack ->
  Forall plain_component (os.enter comp stack).
Proof.
  intros Hcomp Hstack. unfold os.enter.
  destruct (String.eqb_spec comp ""); [exact Hstack|].
  destruct (String.eqb_spec comp "."); [exact Hstack|]. cbn [orb].
  destruct (String.eqb_spec comp ".."); [apply Forall_removelast, Hstack|].
  apply Forall_app. split; [exact Hstack|].
  constructor; [|constructor]. repeat split; assumption.
Qed.

Lemma walk_clean :
  forall s comp stack,
    slash_free comp = true ->
    Forall plain_component stack ->
    Forall plain_component (os.walk s comp stack).
Proof.
  induction s as [|c s IH]; intros comp stack Hcomp Hstack; cbn [os.walk].
  - apply enter_clean; assumption.
  - destruct (Ascii.eqb c "/") eqn:Hc.
    + apply IH; [reflexivity | apply enter_clean; assumption].
    + apply IH; [|exact Hstack].
      rewrite slash_free_append, Hcomp. cbn [slash_free]. rewrite Hc. reflexivity.
Qed.

(** Resolving a path from a clean working directory gives clean
    components. *)
Lemma resolve_clean wd p :
  Forall plain_component wd -> Forall plain_component (os.resolve wd p).
Proof.
  intros Hwd. unfold os.resolve. apply walk_clean; [reflexivity|].
  destruct (String.prefix "/" p); [constructor | exact Hwd].
Qed.

Lemma rendered_append cs rest :
  fold_right (fun c r => "/" +:+ c +:+ r) "" cs +:+ rest
  = fold_right (fun c r => "/" +:+ c +:+ r) rest cs.
Proof.
  induction cs as [|c cs IH]; [reflexivity|].
  cbn [fold_right]. rewrite !append_assoc, IH. reflexivity.
Qed.

Lemma ends_with_slash_append a b :
  b <> "" -> os.ends_with_slash (a +:+ b) = os.ends_with_slash b.
Proof.
  intros Hb. induction a as [|x a IH]; [reflexivity|].
  rewrite append_cons. cbn [os.ends_with_slash].
  destruct (a +:+ b) eqn:Hab; [|exact IH].
  destruct a; [contradiction|discriminate].
Qed.

Lemma ends_with_slash_plain c :
  slash_free c = true -> os.ends_with_slash c = false.
Proof.
  induction c as [|x c IH]; intros Hc; [reflexivity|].
  cbn [slash_free] in Hc. apply andb_true_iff in Hc as [Hx Hc].
  apply negb_true_iff in Hx. cbn [os.ends_with_slash].
  destruct c; [exact Hx | apply IH, Hc].
Qed.

Lemma rendered_no_trailing_slash :
  forall cs,
    cs <> [] ->
    Forall plain_component cs ->
    fold_right (fun c r => "/" +:+ c +:+ r) "" cs <> "" /\
    os.ends_with_slash (fold_right (fun c r => "/" +:+ c +:+ r) "" cs) = false.
Proof.
  induction cs as [|c cs IH]; intros Hne Hcs; [congruence|].
  inversion Hcs as [|? ? (Hfree & Hc0 & _) Hrest]; subst.
  cbn [fold_right]. split; [discriminate|].
  destruct cs as [|c' cs].
  - cbn [fold_right]. rewrite append_empty_r.
    rewrite ends_with_slash_append by exact Hc0.
    apply ends_with_slash_plain, Hfree.
  - destruct (IH ltac:(discriminate) Hrest) as (Hne' & Hends).
    rewrite ends_with_slash_append.
    + rewrite ends_with_slash_append by exact Hne'. exact Hends.
    + destruct c; [contradiction|discriminate].
Qed.

(** Joining an absolute directory and a plain file name. *)
Lemma path_join_render cs file :
  Forall plain_component cs ->
  plain_component file ->
  os.path_join (os.render cs) file = os.render (cs ++ [file]).
Proof.
  intros Hcs Hfile. unfold os.path_join.
  rewrite (prefix_slash_plain file Hfile).
  destruct cs as [|c cs].
  - cbn [os.render app fold_right]. rewrite append_empty_r. reflexivity.
  - destruct (rendered_no_trailing_slash (c :: cs) ltac:(discriminate) Hcs)
      as (Hne & Hends).
    change (os.render (c :: cs))
      with (fold_right (fun c r => "/" +:+ c +:+ r) "" (c :: cs)).
    apply String.eqb_neq in Hne. rewrite Hends, Hne. cbn [orb].
    change (os.render ((c :: cs) ++ [file]))
      with (fold_right (fun c r => "/" +:+ c +:+ r) "" ((c :: cs) ++ [file])).
    rewrite fold_right_app, rendered_append. cbn [fold_right].
    rewrite append_empty_r. reflexivity.
Qed.

Lemma archive_name_plain name :
  slash_free name = true -> plain_component (name +:+ ".zip").
Proof.
  intros Hname.
  assert (Hlen : (4 <= String.length (name +:+ ".zip"))%nat).
  { rewrite length_append. cbn [String.length]. lia. }
  split; [|repeat split; intros E; rewrite E in Hlen; cbn in Hlen; lia].
  rewrite slash_free_append, Hname. reflexivity.
Qed.

(** X8.  With the absolute path of an existing directory and a repository
    name that holds no separator, a download answered with status 200
    writes, under either client, exactly one node: the file
    [<name>.zip] directly inside that directory, with the body of the
    answer as its content, whatever the working directory is. *)
Theorem archive_lands_in_directory
    (cs : list string) (name url : string) (a : Response) (w : World) :
  Forall plain_component cs ->
  slash_free name = true ->
  net w (length (calls w)) url = Answer a ->
  status_code a = 200 ->
  os.lookup_node (fs w) cs = Some Dir ->
  fs w !! (cs ++ [name +:+ ".zip"]) <> Some Dir ->
  http_client_download_file url (os.render cs) (VStr name) w
  = (set_fs (<[cs ++ [name +:+ ".zip"] := File (raw a)]> (fs w))
       (set_calls (calls w ++ [Call (http_client w) DownloadFile url]) w),
     Ok tt).
Proof.
  intros Hcs Hname Hnet Hs Hdir Hfree.
  pose proof (archive_name_plain name Hname) as Hfile.
  assert (Hclean : Forall plain_component (cs ++ [name +:+ ".zip"])).
  { apply Forall_app. split; [exact Hcs|]. constructor; [exact Hfile|constructor]. }
  assert (Hwrite : os.write_node
                     (os.resolve (cwd w) (os.path_join (os.render cs) (name +:+ ".zip")))
                     (raw a) (fs w)
                   = Ok (<[cs ++ [name +:+ ".zip"] := File (raw a)]> (fs w))).
  { rewrite (path_join_render cs _ Hcs Hfile), (resolve_render _ _ Hclean).
    apply write_node_ok.
    - rewrite lookup_node_snoc. exact Hfree.
    - rewrite removelast_last. exact Hdir. }
  unfold http_client_download_file. destruct (http_client w).
  - rewrite requests_download_file_spec. cbn zeta.
    rewrite Hnet, Hs. cbn [Z.eqb Pos.eqb py_add_str]. rewrite Hwrite. reflexivity.
  - rewrite urllib_download_file_spec. cbn zeta.
    rewrite Hnet. unfold urllib.received. rewrite Hs.
    cbn [Z.leb Z.ltb Z.compare Pos.compare Pos.compare_cont andb].
    rewrite Hwrite. reflexivity.
Qed.

Lemma rendered_append_tail cs r t :
  fold_right (fun c r => "/" +:+ c +:+ r) r cs +:+ t
  = fold_right (fun c r => "/" +:+ c +:+ r) (r +:+ t) cs.
Proof.
  induction cs as [|c cs IH]; [reflexivity|].
  cbn [fold_right]. rewrite !append_assoc, IH. reflexivity.
Qed.

Lemma render_snoc cs c :
  os.render (cs ++ [c])
  = fold_right (fun c r => "/" +:+ c +:+ r) "" (cs ++ [c]).
Proof. destruct cs; reflexivity. Qed.

(** The archive name of an absolute path is the path of the archive. *)
Lemma render_archive parent leaf :
  os.render (parent ++ [leaf]) +:+ ".zip"
  = os.render (parent ++ [leaf +:+ ".zip"]).
Proof.
  rewrite !render_snoc, !fold_right_app. cbn [fold_right].
  rewrite rendered_append_tail, !append_assoc, !append_empty_r. reflexivity.
Qed.

Lemma prefix_slash_render_snoc cs c :
  String.prefix "/" (os.render (cs ++ [c])) = true.
Proof.
  rewrite render_snoc. destruct cs; cbn [app fold_right]; apply prefix_slash.
Qed.

(** X9.  The directory does not confine the archive: when the name of a
    repository is an absolute path, [os.path.join] drops the directory,
    and a download answered with status 200 writes, under either client
    and whatever directory it is given, the file of that path with
    [.zip] appended - for the name /home/foo and the directory /home/bob,
    the file /home/foo.zip. *)
Theorem absolute_name_ignores_directory
    (parent : list string) (leaf url directory : string) (a : Response)
    (w : World) :
  Forall plain_component parent ->
  slash_free leaf = true ->
  net w (length (calls w)) url = Answer a ->
  status_code a = 200 ->
  os.lookup_node (fs w) parent = Some Dir ->
  fs w !! (parent ++ [leaf +:+ ".zip"]) <> Some Dir ->
  http_client_download_file url directory
    (VStr (os.render (parent ++ [leaf]))) w
  = (set_fs (<[parent ++ [leaf +:+ ".zip"] := File (raw a)]> (fs w))
       (set_calls (calls w ++ [Call (http_client w) DownloadFile url]) w),
     Ok tt).
Proof.
  intros Hparent Hleaf Hnet Hs Hdir Hfree.
  assert (Hclean : Forall plain_component (parent ++ [leaf +:+ ".zip"])).
  { apply Forall_app. split; [exact Hparent|].
    constructor; [apply archive_name_plain, Hleaf|constructor]. }
  assert (Hwrite : os.write_node
                     (os.resolve (cwd w)
                        (os.path_join directory
                           (os.render (parent ++ [leaf]) +:+ ".zip")))
                     (raw a) (fs w)
                   = Ok (<[parent ++ [leaf +:+ ".zip"] := File (raw a)]> (fs w))).
  { rewrite render_archive. unfold os.path_join.
    rewrite prefix_slash_render_snoc, (resolve_render _ _ Hclean).
    apply write_node_ok.
    - rewrite lookup_node_snoc. exact Hfree.
    - rewrite removelast_last. exact Hdir. }
  unfold http_client_download_file. destruct (http_client w).
  - rewrite requests_download_file_spec. cbn zeta.
    rewrite Hnet, Hs. cbn [Z.eqb Pos.eqb py_add_str]. rewrite Hwrite. reflexivity.
  - rewrite urllib_download_file_spec. cbn zeta.
    rewrite Hnet. unfold urllib.received. rewrite Hs.
    cbn [Z.leb Z.ltb Z.compare Pos.compare Pos.compare_cont andb].
    rewrite Hwrite. reflexivity.
Qed.

(** ** The output directory *)

Lemma makedirs_up_raises :
  forall rp f e, os.makedirs_up rp f = Raise e -> e = OSError.
Proof.
  assert (Hmk : forall p f e, os.mkdir p f = Raise e -> e = OSError).
  { intros p f e. unfold os.mkdir.
    destruct (os.lookup_node f p); [congruence|].
    destruct (os.lookup_node f (removelast p)) as [[|]|]; congruence. }
  induction rp as [|x rhead IH]; intros f e; cbn [os.makedirs_up].
  - congruence.
  - destruct (os.lookup_node f (rev rhead)); [apply Hmk|].
    destruct (os.makedirs_up rhead f) eqn:Hup; [apply Hmk| |discriminate].
    intros [= <-]. eapply IH, Hup.
Qed.

(** X10.  [create_directory_if_not_exist] is guarded by its test: called
    again while the clock still shows the same date and time, it finds the
    directory of the first call, returns the same path, logs nothing and
    leaves the file system as it is; only the clock has been read twice
    more. *)
Theorem existing_directory_is_reused (user : string) (w w1 : World) (p : string) :
  create_directory_if_not_exist user w = (w1, Ok p) ->
  clock w (S (S (ticks w))) = clock w (ticks w) ->
  clock w (S (S (S (ticks w)))) = clock w (S (ticks w)) ->
  create_directory_if_not_exist user w1
  = (set_ticks (S (S (ticks w1))) w1, Ok p).
Proof.
  intros Hfirst Hdate Htime.
  pose proof (create_directory_ok _ _ _ _ Hfirst) as (_ & Hthere & _).
  cbn zeta in Hthere.
  rewrite create_directory_spec in Hfirst. cbn zeta in Hfirst.
  assert (Hsame : cwd w1 = cwd w /\ clock w1 = clock w /\
                  ticks w1 = S (S (ticks w)) /\
                  p = os.render (os.resolve (cwd w)
                        (user +:+ "-Date_"
                           +:+ time.format "%Y-%m-%d" (clock w (ticks w))
                           +:+ "-Time_"
                           +:+ time.format "%H-%M-%S" (clock w (S (ticks w)))))).
  { destruct (os.lookup_node (fs w) _).
    - injection Hfirst as <- <-. repeat split.
    - destruct (os.makedirs_up _ _); try discriminate.
      injection Hfirst as <- <-. repeat split. }
  destruct Hsame as (Hcwd & Hclock & Hticks & Hp).
  rewrite create_directory_spec. cbn zeta.
  rewrite Hcwd, Hclock, Hticks, Hdate, Htime, <- Hp.
  destruct (os.lookup_node (fs w1) (os.resolve (cwd w) p)); [reflexivity|].
  contradiction.
Qed.

Section Setup.

Context `{Interpreter}.

(** X11.  When the output directory cannot be made, the exception is
    [OSError] and it ends [main] before anything is asked of the network:
    no request is sent. *)
Theorem directory_failure_ends_the_run
    (fuel : nat) (user : string) (w : World) (e : exn) :
  snd (create_directory_if_not_exist user w) = Raise e ->
  e = OSError /\
  snd (main fuel user w) = Raise OSError /\
  calls (fst (main fuel user w)) = calls w.
Proof.
  rewrite create_directory_spec. cbn zeta.
  destruct (os.lookup_node (fs w) _) eqn:Hnode; [discriminate|].
  destruct (os.makedirs_up _ _) as [f|e'|] eqn:Hmk; try discriminate.
  cbn [snd]. intros [= ->]. apply makedirs_up_raises in Hmk as He. subst e.
  split; [reflexivity|].
  assert (Hmain : exists o, main fuel user w
                            = (set_stdout o (set_ticks (S (S (ticks w))) w),
                               Raise OSError)).
  { unfold main. unfold bind at 1, logging.info at 1, logging.emit at 1.
    unfold bind at 1. rewrite create_directory_spec. cbn zeta.
    cbn [fs cwd clock ticks stdout set_stdout].
    rewrite Hnode, Hmk. eexists. reflexivity. }
  destruct Hmain as (o & ->). repeat split.
Qed.

End Setup.

(** X12.  From a working directory with clean components, the path that
    [create_directory_if_not_exist] returns is absolute and normalised,
    for every user name that does not begin with two slashes (a prefix
    that POSIX path names keep), also one with slashes or dots inside:
    it is the rendering of clean components, it names the same node from
    any working directory, that node exists after the call, and
    [os.path.abspath] maps the path to itself. *)
Theorem output_directory_path_is_absolute (user : string) (w w' : World) (p : string) :
  String.prefix "//" user = false ->
  Forall plain_component (cwd w) ->
  create_directory_if_not_exist user w = (w', Ok p) ->
  exists cs,
    Forall plain_component cs /\
    p = os.render cs /\
    (forall wd, os.resolve wd p = cs) /\
    os.lookup_node (fs w') cs <> None /\
    os.path_abspath p w' = (w', Ok p).
Proof.
  intros _ Hcwd Hrun.
  pose proof (create_directory_ok _ _ _ _ Hrun) as (_ & Hthere & _).
  cbn zeta in Hthere.
  rewrite create_directory_spec in Hrun. cbn zeta in Hrun.
  set (cs := os.resolve (cwd w)
               (user +:+ "-Date_" +:+ time.format "%Y-%m-%d" (clock w (ticks w))
                     +:+ "-Time_"
                     +:+ time.format "%H-%M-%S" (clock w (S (ticks w))))) in Hrun.
  assert (Hcs : Forall plain_component cs) by (apply resolve_clean, Hcwd).
  assert (Hp : p = os.render cs).
  { destruct (os.lookup_node (fs w) _); [congruence|].
    destruct (os.makedirs_up _ _); congruence. }
  exists cs. subst p. rewrite (resolve_render _ _ Hcs) in Hthere.
  repeat split; try assumption.
  - intros wd. apply resolve_render, Hcs.
  - unfold os.path_abspath. rewrite (resolve_render _ _ Hcs). reflexivity.
Qed.

(** ** What the Exporter writes *)

(** A download changes the file system at one place at most: the node of
    the archive, which then holds a file. *)
Lemma download_file_footprint url directory name w :
  let w1 := fst (http_client_download_file url directory name w) in
  fs w1 = fs w \/
  exists n body,
    name = VStr n /\
    fs w1 = <[os.resolve (cwd w) (os.path_join directory (n +:+ ".zip"))
                := File body]> (fs w).
Proof.
  cbn zeta. unfold http_client_download_file. destruct (http_client w).
  - rewrite requests_download_file_spec. cbn zeta.
    destruct (net w (length (calls w)) url) as [|a]; [left; reflexivity|].
    destruct (status_code a =? 200); [|left; reflexivity].
    destruct name as [| | | |n| |]; try (left; reflexivity).
    cbn [py_add_str]. unfold os.write_node.
    destruct (os.lookup_node (fs w) _) as [[|c]|];
      try (left; reflexivity);
      (destruct (os.lookup_node (fs w) (removelast _)) as [[|]|];
         try (left; reflexivity));
      right; exists n, (raw a); split; reflexivity.
  - destruct name as [| | | |n| |];
      try (left; unfold UrllibHttpClient.download_file, bind, lift; reflexivity).
    rewrite urllib_download_file_spec. cbn zeta.
    destruct (urllib.received _) as [a| |]; try (left; reflexivity).
    unfold os.write_node.
    destruct (os.lookup_node (fs w) _) as [[|c]|];
      try (left; reflexivity);
      (destruct (os.lookup_node (fs w) (removelast _)) as [[|]|];
         try (left; reflexivity));
      right; exists n, (raw a); split; reflexivity.
Qed.

Section Footprint.

Context `{Interpreter}.

(** One record of the Exporter. *)
Lemma save_repositories_step r rest directory w :
  save_repositories (r :: rest) directory w
  = match py_getitem r "name" with
    | Ok n =>
        match py_getitem r "html_url" with
        | Ok u =>
            match http_client_download_file (zipball_url u) directory n
                    (set_stdout
                       (stdout w ++ ["Saving repository " +:+ py_str n
                                       +:+ " to " +:+ directory]) w) with
            | (w1, Ok _) => save_repositories rest directory w1
            | (w1, Raise e) => (w1, Raise e)
            | (w1, OutOfFuel) => (w1, OutOfFuel)
            end
        | Raise e => (w, Raise e)
        | OutOfFuel => (w, OutOfFuel)
        end
    | Raise e => (w, Raise e)
    | OutOfFuel => (w, OutOfFuel)
    end.
Proof.
  cbn [save_repositories]. unfold bind, lift, logging.info, logging.emit.
  destruct (py_getitem r "name"); try reflexivity;
    destruct (py_getitem r "html_url"); reflexivity.
Qed.

(** X13.  Whatever the outcome of the Exporter, a node of the file system
    that it has changed is the archive path of a record of the list - the
    join of the directory and [<name>.zip] for the string [name] of that
    record - and holds a file afterwards.  The Exporter creates no
    directory and removes nothing. *)
Theorem exporter_writes_archives_only
    (directory : string) (repositories : list value) (w : World) :
  let w' := fst (save_repositories repositories directory w) in
  forall q,
    fs w' !! q = fs w !! q \/
    exists r n body,
      In r repositories /\ py_getitem r "name" = Ok (VStr n) /\
      q = os.resolve (cwd w) (os.path_join directory (n +:+ ".zip")) /\
      fs w' !! q = Some (File body).
Proof.
  cbn zeta. revert w.
  induction repositories as [|r rest IH]; intros w q; [left; reflexivity|].
  rewrite save_repositories_step.
  destruct (py_getitem r "name") as [n| |] eqn:Hn; try (left; reflexivity).
  destruct (py_getitem r "html_url") as [u| |] eqn:Hu; try (left; reflexivity).
  set (w0 := set_stdout _ w).
  pose proof (download_file_footprint (zipball_url u) directory n w0) as Hfoot.
  pose proof (steady_download_file (zipball_url u) directory n w0)
    as (_ & _ & Hcwd & _).
  cbn zeta in Hfoot.
  destruct (http_client_download_file _ _ _ w0) as [w1 o] eqn:Hdl.
  cbn [fst] in Hfoot, Hcwd. change (cwd w0) with (cwd w) in Hfoot, Hcwd.
  change (fs w0) with (fs w) in Hfoot.
  assert (Hstep : fs w1 !! q = fs w !! q \/
                  exists m body, n = VStr m /\
                    q = os.resolve (cwd w) (os.path_join directory (m +:+ ".zip")) /\
                    fs w1 !! q = Some (File body)).
  { destruct Hfoot as [-> | (m & body & -> & ->)]; [left; reflexivity|].
    destruct (decide (os.resolve (cwd w) (os.path_join directory (m +:+ ".zip")) = q))
      as [<-|Hne].
    - right. exists m, body. rewrite lookup_insert_eq. repeat split.
    - left. apply lookup_insert_ne, Hne. }
  assert (Hhere : forall wf,
            fs wf !! q = fs w1 !! q ->
            fs wf !! q = fs w !! q \/
            exists r0 m body,
              In r0 (r :: rest) /\ py_getitem r0 "name" = Ok (VStr m) /\
              q = os.resolve (cwd w) (os.path_join directory (m +:+ ".zip")) /\
              fs wf !! q = Some (File body)).
  { intros wf Hsame. rewrite Hsame.
    destruct Hstep as [Hstep | (m & body & -> & Hq & Hfile)]; [left; exact Hstep|].
    right. exists r, m, body. repeat split; auto. left. reflexivity. }
  destruct o as [[]| |]; try (apply Hhere; reflexivity).
  destruct (IH w1 q) as [Hsame | (r' & m & body & Hin & Hname & Hq & Hfile)].
  - apply Hhere, Hsame.
  - right. exists r', m, body. rewrite Hcwd in Hq.
    repeat split; auto. right. exact Hin.
Qed.

End Footprint.

(** ** A run that completes *)

Lemma create_directory_calls user w :
  calls (fst (create_directory_if_not_exist user w)) = calls w /\
  http_client (fst (create_directory_if_not_exist user w)) = http_client w.
Proof.
  rewrite create_directory_spec. cbn zeta.
  destruct (os.lookup_node _ _); [split; reflexivity|].
  destruct (os.makedirs_up _ _); split; reflexivity.
Qed.

Section Completed.

Context `{Interpreter}.

Lemma print_each_frame :
  forall repositories w,
    calls (fst (print_each repositories w)) = calls w /\
    http_client (fst (print_each repositories w)) = http_client w.
Proof.
  induction repositories as [|r rest IH]; intros w; [split; reflexivity|].
  cbn [print_each]. unfold bind at 1 3, lift.
  destruct (py_getitem r "name"); try (split; reflexivity).
  unfold bind, logging.info, logging.emit.
  match goal with
  | |- calls (fst (print_each _ ?w0)) = _ /\ _ => exact (IH w0)
  end.
Qed.

(** X14.  In a run of [main] that completes, the requests sent are, in
    this order: the requests for the pages 0 .. n-1 of the user, then one
    download for each record of the listing, in the order of the listing,
    from [{html_url}/zipball/master/]; nothing is requested before the
    listing or between the two phases. *)
Theorem completed_run_requests (fuel : nat) (user : string) (w w' : World) :
  main fuel user w = (w', Ok tt) ->
  exists (w1 w2 : World) (d : string) (n : nat) (repositories : list value)
         (fields : list (value * value)),
    before_listing user w = (w1, Ok d) /\
    request_for_public_repositories fuel user w1 = (w2, Ok repositories) /\
    Forall2 (fun r nu => py_getitem r "name" = Ok (fst nu) /\
                         py_getitem r "html_url" = Ok (snd nu))
      repositories fields /\
    (n <= fuel)%nat /\
    calls w'
    = calls w ++ page_calls (http_client w) user 0 n
        ++ map (fun nu => Call (http_client w) DownloadFile
                            (zipball_url (snd nu))) fields.
Proof.
  rewrite main_stages. unfold before_downloads.
  unfold bind at 1 2.
  destruct (before_listing user w) as [w1 [d| |]] eqn:Hbl; try discriminate.
  unfold bind at 1.
  destruct (request_for_public_repositories fuel user w1)
    as [w2 [repositories| |]] eqn:Hlist; try discriminate.
  unfold bind at 1.
  destruct (print_received_repositories repositories w2) as [w3 [[]| |]] eqn:Hprint;
    try discriminate.
  unfold ret. cbn [fst snd]. unfold bind at 1.
  destruct (save_repositories repositories d w3) as [w4 [[]| |]] eqn:Hsave;
    try discriminate.
  unfold logging.info, logging.emit. intros [= <-].
  (* the stages, one by one *)
  assert (H1 : calls w1 = calls w /\ http_client w1 = http_client w).
  { unfold before_listing, bind, logging.info, logging.emit in Hbl.
    pose proof (create_directory_calls user
                  (set_stdout (stdout w ++ ["Http client: " +:+ object_repr (http_client w)]) w))
      as Hcreate.
    destruct (create_directory_if_not_exist user _) as [w0 [d0| |]];
      try discriminate.
    unfold ret in Hbl. injection Hbl as <- <-. exact Hcreate. }
  destruct H1 as (Hcalls1 & Hc1).
  destruct (request_pages_calls user fuel [] 0%nat w1) as (n & Hn & Hcalls2).
  pose proof (steady_request_pages user fuel [] 0%nat w1) as (Hc2 & _).
  unfold request_for_public_repositories in Hlist.
  rewrite Hlist in Hcalls2, Hc2. cbn [fst] in Hcalls2, Hc2.
  assert (H3 : calls w3 = calls w2 /\ http_client w3 = http_client w2).
  { unfold print_received_repositories, bind, logging.info, logging.emit in Hprint.
    pose proof (print_each_frame repositories
                  (set_stdout (stdout w2 ++ ["Got public repositories: "]) w2))
      as Hframe.
    destruct (print_each repositories _) as [w0 o].
    assert (w0 = w3) as -> by (destruct o as [[]| |]; congruence).
    exact Hframe. }
  destruct H3 as (Hcalls3 & Hc3).
  destruct (save_repositories_returns d repositories w3 w4 Hsave)
    as (fields & Hfields & Hcalls4 & _).
  exists w1, w2, d, n, repositories, fields.
  repeat split; try assumption.
  cbn [calls set_stdout].
  rewrite Hcalls4, Hcalls3, Hcalls2, Hcalls1, Hc3, Hc2, Hc1, <- app_assoc.
  reflexivity.
Qed.

End Completed.

(** ** One directory per second *)






(** * More examples *)

(** The network goes away after the first page of bob's listing. *)
Lemma lister_failure_is_final_witness :
  request_for_public_repositories 5 "bob"
    (world_of UrllibHttpClient github_one_answer)
  = (set_calls (page_calls UrllibHttpClient "bob" 0 2)
       (world_of UrllibHttpClient github_one_answer),
     Raise ConnectionError).
Proof.
  rewrite (lister_failure_is_final "bob" bob_pages 1 5
             (world_of UrllibHttpClient github_one_answer) ConnectionError).
  - reflexivity.
  - intros i Hi. destruct i as [|i]; [discriminate|lia].
  - intros i Hi. destruct i as [|i]; [vm_compute; reflexivity|lia].
  - left. vm_compute. reflexivity.
  - lia.
Defined.

Lemma main_stops_when_listing_fails_witness :
  snd (@main an_interpreter 5 "bob" (world_of UrllibHttpClient github_one_answer))
  = Raise ConnectionError.
Proof.
  pose (w := world_of UrllibHttpClient github_one_answer).
  destruct (@main_stops_when_listing_fails an_interpreter 5 "bob" w
              (fst (@before_listing an_interpreter "bob" w))
              (fst (request_for_public_repositories 5 "bob"
                      (fst (@before_listing an_interpreter "bob" w))))
              "/home/bob/bob-Date_2024-03-05-Time_14-07-22" ConnectionError)
    as (Hmain & _).
  - vm_compute. reflexivity.
  - vm_compute. reflexivity.
  - fold w. rewrite Hmain. reflexivity.
Defined.

(** Two records, then a string where a record should be. *)
Lemma print_received_repositories_lines_witness :
  @print_received_repositories an_interpreter
    (bob_pages 0 ++ VStr "message" :: bob_pages 1) rate_limited
  = (set_stdout ["Got public repositories: "; "Public repository: foo";
                 "Public repository: bar"] rate_limited,
     Raise TypeError).
Proof.
  destruct (@print_received_repositories_lines an_interpreter
              (bob_pages 0) [VStr "foo"; VStr "bar"] rate_limited)
    as [_ Hstop].
  - repeat constructor.
  - rewrite (Hstop (VStr "message") (bob_pages 1) TypeError eq_refl).
    reflexivity.
Defined.

(** The rate limit hit once, with the requests client. *)
Lemma error_document_listed_as_records_witness :
  snd (@main an_interpreter 5 "octocat"
         (world_of RequestsHttpClient rate_limited_once))
  = Raise TypeError /\
  calls (fst (@main an_interpreter 5 "octocat"
                (world_of RequestsHttpClient rate_limited_once)))
  = page_calls RequestsHttpClient "octocat" 0 2.
Proof.
  pose (w0 := world_of RequestsHttpClient rate_limited_once).
  destruct (@error_document_listed_as_records an_interpreter 5 "octocat" w0
              (fst (@before_listing an_interpreter "octocat" w0))
              "/home/bob/octocat-Date_2024-03-05-Time_14-07-22"
              [("message", VStr "API rate limit exceeded");
               ("documentation_url", VStr "https://docs.github.com/rest")]
              (VList []))
    as (_ & _ & Hmain & Hcalls & _).
  - vm_compute. reflexivity.
  - discriminate.
  - vm_compute. reflexivity.
  - vm_compute. reflexivity.
  - reflexivity.
  - lia.
  - fold w0. rewrite Hmain, Hcalls. split; reflexivity.
Defined.

(** bob's three repositories with the requests client. *)
Lemma exporter_one_download_per_record_witness :
  exists fields : list (value * value),
    Forall2 (fun r nu => py_getitem r "name" = Ok (fst nu) /\
                         py_getitem r "html_url" = Ok (snd nu))
      (bob_pages 0 ++ bob_pages 1) fields /\
    calls (fst (@save_repositories an_interpreter (bob_pages 0 ++ bob_pages 1)
                  "/home/bob" (world_of RequestsHttpClient github)))
    = [] ++ map (fun nu => Call RequestsHttpClient DownloadFile
                             (@zipball_url an_interpreter (snd nu))) fields.
Proof.
  apply (@exporter_one_download_per_record an_interpreter "/home/bob"
           (bob_pages 0 ++ bob_pages 1) (world_of RequestsHttpClient github)).
  vm_compute. reflexivity.
Defined.

Lemma request_for_json_on_error_status_witness :
  snd (RequestsHttpClient.request_for_json (page_url "octocat" 0) rate_limited)
  = Ok rate_limit_document /\
  snd (UrllibHttpClient.request_for_json (page_url "octocat" 0) rate_limited)
  = Raise (HTTPError 403).
Proof.
  destruct (request_for_json_on_error_status (page_url "octocat" 0) rate_limited
              {| status_code := 403; raw := []; json := Some rate_limit_document |})
    as [Hrequests Hurllib].
  - reflexivity.
  - cbn [status_code]. lia.
  - rewrite Hrequests, Hurllib. split; reflexivity.
Defined.

(** The zipball of bob/foo, saved in /home/bob by the urllib client. *)
Lemma archive_lands_in_directory_witness :
  fs (fst (http_client_download_file
             "https://github.com/bob/foo/zipball/master/" "/home/bob" (VStr "foo")
             (world_of UrllibHttpClient github)))
  = <[ ["home"; "bob"; "foo.zip"] := File zip_bytes ]> home.
Proof.
  change "/home/bob" with (os.render ["home"; "bob"]).
  rewrite (archive_lands_in_directory ["home"; "bob"] "foo"
             "https://github.com/bob/foo/zipball/master/"
             {| status_code := 200; raw := zip_bytes; json := None |}
             (world_of UrllibHttpClient github)).
  - reflexivity.
  - repeat constructor; discriminate.
  - reflexivity.
  - vm_compute. reflexivity.
  - reflexivity.
  - vm_compute. reflexivity.
  - vm_compute. discriminate.
Defined.

Lemma absolute_name_ignores_directory_witness :
  http_client_download_file "https://github.com/bob/foo/zipball/master/"
    "/home/bob" (VStr "/home/foo") (world_of RequestsHttpClient github)
  = (set_fs (<[ ["home"; "foo.zip"] := File zip_bytes ]> home)
       (set_calls [Call RequestsHttpClient DownloadFile
                     "https://github.com/bob/foo/zipball/master/"]
          (world_of RequestsHttpClient github)),
     Ok tt).
Proof.
  change "/home/foo" with (os.render (["home"] ++ ["foo"])).
  rewrite (absolute_name_ignores_directory ["home"] "foo"
             "https://github.com/bob/foo/zipball/master/" "/home/bob"
             {| status_code := 200; raw := zip_bytes; json := None |}
             (world_of RequestsHttpClient github)).
  - reflexivity.
  - repeat constructor; discriminate.
  - reflexivity.
  - vm_compute. reflexivity.
  - reflexivity.
  - vm_compute. reflexivity.
  - vm_compute. discriminate.
Defined.

(** The directory of bob, asked for twice within the same second. *)
Lemma existing_directory_is_reused_witness :
  let w1 := fst (create_directory_if_not_exist "bob"
                   (world_of RequestsHttpClient github)) in
  create_directory_if_not_exist "bob" w1
  = (set_ticks 4 w1, Ok "/home/bob/bob-Date_2024-03-05-Time_14-07-22").
Proof.
  cbn zeta.
  rewrite (existing_directory_is_reused "bob"
             (world_of RequestsHttpClient github)
             (fst (create_directory_if_not_exist "bob"
                     (world_of RequestsHttpClient github)))
             "/home/bob/bob-Date_2024-03-05-Time_14-07-22").
  - reflexivity.
  - vm_compute. reflexivity.
  - reflexivity.
  - reflexivity.
Defined.

(** /home/bob/team is a file: no directory can be made below it. *)
Lemma directory_failure_ends_the_run_witness :
  snd (@main an_interpreter 5 "team/bob" blocked) = Raise OSError /\
  calls (fst (@main an_interpreter 5 "team/bob" blocked)) = [].
Proof.
  destruct (@directory_failure_ends_the_run an_interpreter 5 "team/bob" blocked
              OSError)
    as (_ & Hmain & Hcalls).
  - vm_compute. reflexivity.
  - rewrite Hmain, Hcalls. split; reflexivity.
Defined.

(** A user name with a separator in it. *)
Lemma output_directory_path_is_absolute_witness :
  exists cs,
    Forall plain_component cs /\
    "/home/bob/team/bob-Date_2024-03-05-Time_14-07-22" = os.render cs /\
    (forall wd,
       os.resolve wd "/home/bob/team/bob-Date_2024-03-05-Time_14-07-22" = cs) /\
    os.lookup_node
      (fs (fst (create_directory_if_not_exist "team/bob"
                  (world_of RequestsHttpClient github)))) cs <> None /\
    os.path_abspath "/home/bob/team/bob-Date_2024-03-05-Time_14-07-22"
      (fst (create_directory_if_not_exist "team/bob"
              (world_of RequestsHttpClient github)))
    = (fst (create_directory_if_not_exist "team/bob"
              (world_of RequestsHttpClient github)),
       Ok "/home/bob/team/bob-Date_2024-03-05-Time_14-07-22").
Proof.
  apply (output_directory_path_is_absolute "team/bob"
           (world_of RequestsHttpClient github)).
  - reflexivity.
  - repeat constructor; discriminate.
  - vm_compute. reflexivity.
Defined.

(** The whole run for bob, with the requests client. *)
Lemma completed_run_requests_witness :
  let w := world_of RequestsHttpClient github in
  let w' := fst (@main an_interpreter 5 "bob" w) in
  exists (w1 w2 : World) (d : string) (n : nat) (repositories : list value)
         (fields : list (value * value)),
    @before_listing an_interpreter "bob" w = (w1, Ok d) /\
    request_for_public_repositories 5 "bob" w1 = (w2, Ok repositories) /\
    Forall2 (fun r nu => py_getitem r "name" = Ok (fst nu) /\
                         py_getitem r "html_url" = Ok (snd nu))
      repositories fields /\
    (n <= 5)%nat /\
    calls w'
    = calls w ++ page_calls (http_client w) "bob" 0 n
        ++ map (fun nu => Call (http_client w) DownloadFile
                            (@zipball_url an_interpreter (snd nu))) fields.
Proof.
  cbn zeta.
  apply (@completed_run_requests an_interpreter 5 "bob"
           (world_of RequestsHttpClient github)).
  vm_compute. reflexivity.
Defined.

